(** * Nook: the three ingestion jobs and their invocation gate

    A shallow embedding of
      - src/nook/lambda/github_trending/github_trending.py
      - src/nook/lambda/hacker_news/hacker_news.py
      - src/nook/lambda/tech_feed/tech_feed.py
    Each job is a sequential batch program: fetch, filter, summarize,
    format, store.  Python code that raises is modelled in an error
    monad; the blob store is a finite map that is threaded through; every
    external call and every print is recorded in an effect list, in the
    order in which the program performs it. *)

From Stdlib Require Import String Ascii ZArith List Bool Lia DecimalString.
From stdpp Require Import gmap strings list.

Open Scope string_scope.
Open Scope Z_scope.

(** ** Python strings

    A Python [str] is a [string]; one [ascii] stands for one character.
    The two Japanese prompt constants are carried as their UTF-8 bytes;
    no property below looks inside them. *)

Definition nl : string := String "010"%char EmptyString.
Definition dq : string := String "034"%char EmptyString.
Definition bq3 : string := "```".

(** [sep.join(parts)] *)
Definition join (sep : string) (parts : list string) : string :=
  String.concat sep parts.

(** [s[:n]] on a str *)
Definition str_prefix (n : Z) (s : string) : string :=
  substring 0 (Z.to_nat n) s.

(** [len(s)] *)
Definition len (s : string) : Z := Z.of_nat (String.length s).

(** [str(n)] for an int *)
Definition str_of_int (z : Z) : string := NilZero.string_of_int (Z.to_int z).

(** [str.isspace] on one character: the characters below 256 that Python
    classifies as whitespace. *)
Definition is_py_space (c : ascii) : bool :=
  let n := nat_of_ascii c in
  ((9 <=? n) && (n <=? 13) || (28 <=? n) && (n <=? 32)
   || (n =? 133) || (n =? 160))%nat.

Fixpoint all_chars (p : ascii -> bool) (s : string) : bool :=
  match s with
  | EmptyString => true
  | String c s' => p c && all_chars p s'
  end.

(** [s.isspace()]: at least one character and all of them whitespace. *)
Definition isspace (s : string) : bool :=
  match s with
  | EmptyString => false
  | _ => all_chars is_py_space s
  end.

(** Truth value of a [str | None]. *)
Definition truthy_str (o : option string) : bool :=
  match o with
  | Some (String _ _) => true
  | _ => false
  end.

(** [str(x)] of a [str | None], as [str.format] and f-strings render it. *)
Definition str_of_optional (o : option string) : string :=
  match o with
  | Some s => s
  | None => "None"
  end.

(** ** Exceptions *)

Inductive exn_class :=
| Exception | KeyError | TypeError | ValueError | AttributeError
| OverflowError | BinasciiError | UnicodeDecodeError | JSONDecodeError
| ClientError | RequestException.

Record exn := Exn { exn_cls : exn_class; exn_msg : string }.

#[global] Instance exn_class_eq_dec : EqDecision exn_class.
Proof. solve_decision. Defined.

(** [str(e)] *)
Definition str_of_exn (e : exn) : string := exn_msg e.

Inductive result (A : Type) :=
| Ok (a : A)
| Raise (e : exn).
Arguments Ok {A} a.
Arguments Raise {A} e.

(** ** JSON-shaped Python values (the invocation payload) *)

#[warnings="-register-all"]
Inductive value :=
| VNone
| VBool (b : bool)
| VInt (z : Z)
| VStr (s : string)
| VList (l : list value)
| VDict (d : list (string * value)).

Definition dict := list (string * value).

(** [d.get(k)] ([None] of the model when the key is absent) *)
Fixpoint dict_get (d : dict) (k : string) : option value :=
  match d with
  | [] => None
  | (k', v) :: d' => if String.eqb k' k then Some v else dict_get d' k
  end.

(** [k in d] *)
Definition dict_has (d : dict) (k : string) : bool :=
  match dict_get d k with Some _ => true | None => false end.

(** [type(v).__name__] *)
Definition type_name (v : value) : string :=
  match v with
  | VNone => "NoneType"
  | VBool _ => "bool"
  | VInt _ => "int"
  | VStr _ => "str"
  | VList _ => "list"
  | VDict _ => "dict"
  end.

(** [v.get(k, default)] on an arbitrary value: only a dict has [get]. *)
Definition py_get (v : value) (k : string) (default : value) : result value :=
  match v with
  | VDict d => Ok (match dict_get d k with Some x => x | None => default end)
  | _ => Raise (Exn AttributeError
                  ("'" ++ type_name v ++ "' object has no attribute 'get'"))
  end.

(** [v == s] for a str literal [s] *)
Definition is_str (v : value) (s : string) : bool :=
  match v with
  | VStr s' => String.eqb s' s
  | _ => false
  end.

(** Truth value of a Python value. *)
Definition truthy (v : value) : bool :=
  match v with
  | VNone => false
  | VBool b => b
  | VInt z => negb (z =? 0)
  | VStr s => negb (String.eqb s "")
  | VList l => match l with [] => false | _ => true end
  | VDict d => match d with [] => false | _ => true end
  end.

(** ** Records of the three jobs *)

(** github_trending.py: [Repository] *)
Record Repository := {
  repo_name : string;
  repo_description : option string;
  repo_link : string;
  repo_stars : Z
}.

(** One item of the Hacker News API: a dict whose keys may be absent. *)
Record RawStory := {
  raw_title : option string;
  raw_score : option Z;
  raw_url : option string;
  raw_text : option string
}.

(** hacker_news.py: [Story] *)
Record Story := {
  story_title : string;
  story_score : Z;
  story_url : option string;
  story_text : option string
}.

(** [time.struct_time] *)
Record struct_time := {
  tm_year : Z; tm_mon : Z; tm_mday : Z;
  tm_hour : Z; tm_min : Z; tm_sec : Z;
  tm_wday : Z; tm_yday : Z; tm_isdst : Z
}.

(** One entry of a parsed feed; like the dates, the link and the title
    may be absent. *)
Record Entry := {
  entry_link : option string;
  entry_title : option string;
  date_parsed : option struct_time;
  published_parsed : option struct_time
}.

(** tech_feed.py: [Article] (the [soup] field is never read again). *)
Record Article := {
  art_feed_name : string;
  art_title : string;
  art_url : string;
  art_text : string;
  art_summary : string
}.

(** A naive [datetime]: microseconds on the local calendar line. *)
Definition datetime := Z.

(** [timedelta(days=n)] *)
Definition timedelta_days (n : Z) : Z := n * 86400 * 1000000.

(** ** Effects *)

Inductive dumped :=
| DEvent (event : dict)
| DEntry (e : Entry)
| DExn (e : exn)
| DTraceback (e : exn)
| DBodyPrefix (l : list value).

Inductive effect :=
| Print (line : string)
| Dump (what : dumped)
| HttpGet (url : string)
| FeedParse (url : string)
| GenerateContent (contents instruction : string)
| PutObject (bucket key body : string)
| Sleep (seconds : Z).

(** The effects by which a job touches the outside; prints are the rest. *)
Definition is_job_effect (e : effect) : bool :=
  match e with
  | Print _ | Dump _ => false
  | _ => true
  end.

Definition is_put (e : effect) : bool :=
  match e with
  | PutObject _ _ _ => true
  | _ => false
  end.

(** The blob store: (bucket, key) to object body. *)
Abbreviation store := (gmap (string * string) string).

Record outcome (A : Type) := Outcome {
  res : result A;
  final : store;
  effects : list effect
}.
Arguments Outcome {A} res final effects.
Arguments res {A} o.
Arguments final {A} o.
Arguments effects {A} o.

(** ** The monad of a run: store passing, exceptions, effect log *)

Definition M (A : Type) : Type := store -> outcome A.

Definition ret {A} (a : A) : M A := fun s => Outcome (Ok a) s [].

Definition bind {A B} (m : M A) (f : A -> M B) : M B := fun s =>
  match m s with
  | Outcome (Ok a) s' effs =>
      match f a s' with
      | Outcome r s'' effs' => Outcome r s'' (effs ++ effs')
      end
  | Outcome (Raise e) s' effs => Outcome (Raise e) s' effs
  end.

Definition raise {A} (e : exn) : M A := fun s => Outcome (Raise e) s [].

Definition emit (e : effect) : M unit := fun s => Outcome (Ok tt) s [e].

Definition print (line : string) : M unit := emit (Print line).

(** Lift the answer of an external call. *)
Definition lift {A} (r : result A) : M A :=
  match r with
  | Ok a => ret a
  | Raise e => raise e
  end.

(** [try: m  except <classes accepted by catches> as e: handler e] *)
Definition try_except {A} (m : M A) (catches : exn -> bool)
    (handler : exn -> M A) : M A := fun s =>
  match m s with
  | Outcome (Ok a) s' effs => Outcome (Ok a) s' effs
  | Outcome (Raise e) s' effs =>
      if catches e then
        match handler e s' with
        | Outcome r s'' effs' => Outcome r s'' (effs ++ effs')
        end
      else Outcome (Raise e) s' effs
  end.

(** [except Exception] *)
Definition any_exception (e : exn) : bool := true.

(** [except C] for a leaf class [C] *)
Definition of_class (c : exn_class) (e : exn) : bool :=
  bool_decide (exn_cls e = c).

Declare Scope run_scope.
Delimit Scope run_scope with run.
Notation "'let*' x := m 'in' k" := (bind m (fun x => k))
  (at level 10, x name, m at level 100, k at level 200) : run_scope.
Notation "m >> k" := (bind m (fun _ => k))
  (at level 100, k at level 200, right associativity) : run_scope.
Open Scope run_scope.

(** [for x in xs: acc = body(acc, x)] *)
Fixpoint for_each {A B} (body : B -> A -> M B) (xs : list A) (acc : B) : M B :=
  match xs with
  | [] => ret acc
  | x :: xs' => let* acc' := body acc x in for_each body xs' acc'
  end.

(** ** Libraries and the outside world

    Library calls whose internals the jobs do not own are fields of
    [Library]; what the network, the clock, the process environment and
    the blob store answer during one invocation are fields of [World]. *)

Class Library := {
  (** [binascii.a2b_base64] on an ASCII str: the bytes, or binascii.Error *)
  a2b_base64 : string -> result string;
  (** [bytes.decode('utf-8')]: the text, or UnicodeDecodeError *)
  utf8_decode : string -> result string;
  (** [json.loads] on a str: the value, or JSONDecodeError *)
  json_loads : string -> result value;
  (** [BeautifulSoup(text, "html.parser").get_text()] *)
  get_text : string -> string;
  (** the joined text of the p, code, ul and h1..h6 elements of a page *)
  article_text : string -> result string;
  (** the repository entries read off a trending page *)
  trending_repositories : string -> result (list Repository);
  (** [time.mktime]: seconds since the epoch *)
  mktime : struct_time -> result Z;
  (** [datetime.fromtimestamp] *)
  fromtimestamp : Z -> result datetime
}.

Class World := {
  (** [os.environ] *)
  os_environ : list (string * string);
  (** [date.today().strftime("%Y-%m-%d")] *)
  today : string;
  (** [datetime.now()] *)
  now : datetime;
  (** [requests.get(url).text] *)
  requests_get : string -> result string;
  (** [requests.get(topstories).json()] *)
  hn_top_story_ids : result (list Z);
  (** [requests.get(item).json()] *)
  hn_item : Z -> result RawStory;
  (** [feedparser.parse(url)["entries"]] *)
  feedparser_parse : string -> result (list Entry);
  (** the generative-text client: [generate_content(contents, system_instruction)] *)
  generate_content : string -> string -> result string;
  (** [gemini_client.create_client()] failing, if it does *)
  create_client_error : option exn;
  (** what [put_object(Bucket, Key, Body)] raises, if anything *)
  put_object_error : string -> string -> string -> option exn;
  (** languages.toml and feed.toml as the two [Config] loaders read them *)
  languages_toml : result (list string);
  feed_toml : result (list (string * string))
}.

Section Services.
Context `{World}.

(** [os.environ[k]] *)
Definition environ_get (k : string) : M string :=
  match List.find (fun kv => String.eqb (fst kv) k) os_environ with
  | Some kv => ret (snd kv)
  | None => raise (Exn KeyError ("'" ++ k ++ "'"))
  end.

(** [self._s3.put_object(Bucket=b, Key=k, Body=body)] *)
Definition put_object (b k body : string) : M unit := fun s =>
  match put_object_error b k body with
  | None => Outcome (Ok tt) (<[(b, k) := body]> s) [PutObject b k body]
  | Some e => Outcome (Raise e) s [PutObject b k body]
  end.

(** The body common to the three [_store_summaries] methods; they differ
    in [Config.summary_index_s3_key_format] only. *)
Definition store_summaries_under (prefix bucket : string)
    (summaries : list string) : M unit :=
  let date_str := today in
  let key := prefix ++ "/" ++ date_str ++ ".md" in
  let content := join (nl ++ "---" ++ nl) summaries in
  try_except
    (put_object bucket key content)
    (of_class ClientError)
    (fun e =>
       print ("Error putting object " ++ key ++ " into bucket "
              ++ bucket ++ ".") >>
       emit (Dump (DExn e))).
End Services.

(** ** The invocation gate

    The three [lambda_handler] functions are the same text up to the name
    of the job, the way the event is printed, and one extra print in
    tech_feed.py; [handler] is that text, with the job as a parameter. *)

Record response := {
  statusCode : Z;
  headers : option (list (string * string));
  body : option string
}.

Definition hex_digit (n : nat) : string :=
  substring n 1 "0123456789abcdef".

(** One character under [json.dumps] (ensure_ascii): everything outside
    the range from space to tilde is escaped. *)
Definition json_escape_char (c : ascii) : string :=
  let n := nat_of_ascii c in
  if (n =? 34)%nat then "\" ++ dq
  else if (n =? 92)%nat then "\\"
  else if (n =? 10)%nat then "\n"
  else if (n =? 13)%nat then "\r"
  else if (n =? 9)%nat then "\t"
  else if (n =? 8)%nat then "\b"
  else if (n =? 12)%nat then "\f"
  else if ((n <? 32) || (126 <? n))%nat
       then "\u00" ++ hex_digit (n / 16) ++ hex_digit (n mod 16)
  else String c EmptyString.

Fixpoint json_escape (s : string) : string :=
  match s with
  | EmptyString => ""
  | String c s' => json_escape_char c ++ json_escape s'
  end.

(** [json.dumps({"message": m})] *)
Definition json_message (m : string) : string :=
  "{" ++ dq ++ "message" ++ dq ++ ": " ++ dq ++ json_escape m ++ dq ++ "}".

Definition json_response (code : Z) (m : string) : response :=
  {| statusCode := code;
     headers := Some [("Content-Type", "application/json")];
     body := Some (json_message m) |}.

Definition bare_response (code : Z) : response :=
  {| statusCode := code; headers := None; body := None |}.

Definition is_ascii_char (c : ascii) : bool := (nat_of_ascii c <? 128)%nat.

(** [event.get("source") == "aws.events"] *)
Definition from_scheduler (event : dict) : bool :=
  match dict_get event "source" with
  | Some v => is_str v "aws.events"
  | None => false
  end.

Section Gate.
Context `{Library} `{World}.

(** [base64.b64decode(v)]: the argument is first coerced to ASCII bytes
    (ValueError for a str with a non-ASCII character, TypeError for what
    is no str), then decoded. *)
Definition b64decode (v : value) : result string :=
  match v with
  | VStr s =>
      if all_chars is_ascii_char s then a2b_base64 s
      else Raise (Exn ValueError
                    "string argument should contain only ASCII characters")
  | _ =>
      Raise (Exn TypeError
               ("argument should be a bytes-like object or ASCII string, not '"
                ++ type_name v ++ "'"))
  end.

(** [print(f"Parsed body string: {body_str[:200]}...")] *)
Definition print_body_prefix (body_str : value) : M unit :=
  match body_str with
  | VStr s => print ("Parsed body string: " ++ str_prefix 200 s ++ "...")
  | VList l => emit (Dump (DBodyPrefix (firstn 200 l)))
  | VDict _ => raise (Exn TypeError "unhashable type: 'slice'")
  | _ => raise (Exn TypeError
                  ("'" ++ type_name body_str
                   ++ "' object is not subscriptable"))
  end.

(** From [body_str = event.get("body", "{}")] to the print of its
    first 200 characters. *)
Definition body_string (event : dict) : M value :=
  let body_str :=
    match dict_get event "body" with Some v => v | None => VStr "{}" end in
  let* body_str :=
    if truthy (match dict_get event "isBase64Encoded" with
               | Some v => v
               | None => VBool false
               end)
    then
      print "Decoding Base64 body" >>
      try_except
        (let* raw := lift (b64decode body_str) in
         let* text := lift (utf8_decode raw) in
         ret (VStr text))
        (fun e => of_class BinasciiError e || of_class UnicodeDecodeError e)
        (fun e =>
           print ("Failed to decode Base64 body: " ++ str_of_exn e) >>
           ret (VStr "{}"))
    else ret body_str in
  print_body_prefix body_str >>
  ret body_str.

(** The [try: body_json = json.loads(body_str) ...] block. *)
Definition body_triggers (body_str : value) : M bool :=
  match body_str with
  | VStr s =>
      try_except
        (let* body_json := lift (json_loads s) in
         let* source := lift (py_get body_json "source" VNone) in
         if is_str source "aws.events" then
           print "Found 'source: aws.events' in request body." >>
           ret true
         else
           print "Request body did not contain 'source: aws.events'." >>
           ret false)
        (of_class JSONDecodeError)
        (fun e =>
           print ("Failed to decode JSON body: " ++ str_of_exn e) >>
           print ("Body content was: " ++ s) >>
           ret false)
  | _ =>
      raise (Exn TypeError
               ("the JSON object must be str, bytes or bytearray, not "
                ++ type_name body_str))
  end.

(** Which branch of the gate the event takes. *)
Definition is_trigger_event (event : dict) : M bool :=
  if from_scheduler event
  then
    print "Invocation source: EventBridge" >>
    ret true
  else
    match dict_get event "requestContext" with
    | Some request_context =>
        let* http := lift (py_get request_context "http" (VDict [])) in
        let* method := lift (py_get http "method" VNone) in
        if is_str method "POST" then
          print "Invocation source: Function URL (POST)" >>
          let* body_str := body_string event in
          body_triggers body_str
        else ret false
    | None => ret false
    end.

Variable job_name : string.
Variable non_http_note : bool.
Variable job : M unit.

Definition handler (event : dict) : M response :=
  emit (Dump (DEvent event)) >>
  try_except
    (let* triggered := is_trigger_event event in
     if triggered then
       print ("Triggering " ++ job_name ++ " job...") >>
       job >>
       print (job_name ++ " job finished.") >>
       ret (json_response 200 (job_name ++ " triggered successfully"))
     else
       print "Invocation source not recognized or payload mismatch. No action taken." >>
       if dict_has event "requestContext" then
         ret (json_response 400
                "Invalid request: Expected 'source: aws.events' in POST body")
       else
         (if non_http_note
          then print "Returning 400 for unrecognized non-HTTP invocation."
          else ret tt) >>
         ret (bare_response 400))
    any_exception
    (fun e =>
       print "An error occurred during execution:" >>
       emit (Dump (DTraceback e)) >>
       if dict_has event "requestContext" then
         ret (json_response 500 ("Internal server error: " ++ str_of_exn e))
       else ret (bare_response 500)).
End Gate.

(** ** github_trending.py *)

Module github_trending.
Section Job.
Context `{Library} `{World}.

Definition _MARKDOWN_FORMAT (title score url description : string) : string :=
  nl ++ "# " ++ title ++ nl ++ nl
  ++ "**Score**: " ++ score ++ nl ++ nl
  ++ "[View Link](" ++ url ++ ")" ++ nl ++ nl
  ++ description ++ nl.

Definition url_format (language : string) : string :=
  "https://github.com/trending/" ++ language ++ "?since=daily".

Record self := { _bucket_name : string; _languages : list string }.

(** [GithubTrending.__init__] *)
Definition __init__ : M self :=
  let* bucket := environ_get "BUCKET_NAME" in
  let* languages := lift languages_toml in
  ret {| _bucket_name := bucket; _languages := languages |}.

Definition _retrieve_repositories (url : string) : M (list Repository) :=
  emit (HttpGet url) >>
  let* page := lift (requests_get url) in
  lift (trending_repositories page).

Definition _stylize_repository_info (repository : Repository) : string :=
  _MARKDOWN_FORMAT
    (repo_name repository)
    (str_of_int (repo_stars repository))
    (repo_link repository)
    (if truthy_str (repo_description repository)
     then str_of_optional (repo_description repository)
     else "No description").

Definition _store_summaries (me : self) (summaries : list string) : M unit :=
  store_summaries_under "github_trending" (_bucket_name me) summaries.

(** One turn of the loop over the languages. *)
Definition language_step (markdowns : list string) (language : string)
    : M (list string) :=
  try_except
    (let* new_repositories := _retrieve_repositories (url_format language) in
     ret (markdowns ++ map _stylize_repository_info new_repositories)%list)
    any_exception
    (fun e =>
       print ("Error processing language " ++ language ++ ": "
              ++ str_of_exn e) >>
       emit (Dump (DTraceback e)) >>
       ret markdowns).

(** [GithubTrending.__call__] *)
Definition __call__ (me : self) : M unit :=
  let* markdowns := for_each language_step (_languages me) [] in
  _store_summaries me markdowns.

Definition lambda_handler (event : dict) : M response :=
  handler "GithubTrending" false
    (let* github_trending_ := __init__ in __call__ github_trending_)
    event.
End Job.
End github_trending.

(** [d[k]] on a dict whose key [k] may be absent *)
Definition subscript {A} (o : option A) (k : string) : M A :=
  match o with
  | Some a => ret a
  | None => raise (Exn KeyError ("'" ++ k ++ "'"))
  end.

(** [entry.name] on a feed entry: an absent key raises AttributeError. *)
Definition attribute {A} (o : option A) (name : string) : M A :=
  match o with
  | Some a => ret a
  | None => raise (Exn AttributeError
                     ("object has no attribute '" ++ name ++ "'"))
  end.

(** ** hacker_news.py *)

Module hacker_news.
Section Job.
Context `{Library} `{World}.

Definition _MARKDOWN_FORMAT (title score url_or_text : string) : string :=
  nl ++ "# " ++ title ++ nl ++ nl
  ++ "**Score**: " ++ score ++ nl ++ nl
  ++ url_or_text ++ nl.

Definition hacker_news_top_stories_url : string :=
  "https://hacker-news.firebaseio.com/v0/topstories.json".

Definition hacker_news_item_url (story_id : Z) : string :=
  "https://hacker-news.firebaseio.com/v0/item/" ++ str_of_int story_id
  ++ ".json".

Definition hacker_news_num_top_stories : nat := 30.

Record self := { _bucket_name : string }.

(** [HackerNewsRetriever.__init__] *)
Definition __init__ : M self :=
  match create_client_error with
  | Some e => raise e
  | None =>
      let* bucket := environ_get "BUCKET_NAME" in
      ret {| _bucket_name := bucket |}
  end.

Definition _system_instruction : string :=
  "あなたは、Hacker Newsの最新の記事を要約するアシスタントです。" ++ nl
  ++ "ユーザーからHacker Newsの記事のタイトルと本文を与えられるので、あなたはその記事を日本語で要約してください。" ++ nl
  ++ "なお、要約以外の出力は不要です。".

Definition _contents_format (title text : string) : string :=
  "タイトル" ++ nl ++ bq3 ++ nl ++ title ++ nl ++ bq3 ++ nl ++ nl
  ++ "本文" ++ nl ++ bq3 ++ nl ++ text ++ nl ++ bq3.

Definition _cleanse_text (text : string) : string :=
  match text with
  | EmptyString => ""
  | _ => get_text text
  end.

Definition _summarize_story (story : RawStory) : M string :=
  let* title := subscript (raw_title story) "title" in
  let* text := subscript (raw_text story) "text" in
  let contents := _contents_format title (_cleanse_text text) in
  emit (GenerateContent contents _system_instruction) >>
  lift (generate_content contents _system_instruction).

Definition _get_top_storie_ids : M (list Z) :=
  emit (HttpGet hacker_news_top_stories_url) >>
  lift hn_top_story_ids.

Definition _get_story (story_id : Z) : M RawStory :=
  emit (HttpGet (hacker_news_item_url story_id)) >>
  lift (hn_item story_id).

(** Step 4 of the loop: the summary of a story that carries text. *)
Definition summary_of (story : RawStory) : M (option string) :=
  if truthy_str (raw_text story) then
    let* text := subscript (raw_text story) "text" in
    if (100 <? len text) && (len text <? 10000)
    then
      let* summary := _summarize_story story in
      ret (Some summary)
    else ret (Some (_cleanse_text text))
  else ret None.

(** One turn of the loop over the story ids. *)
Definition story_step (stories : list Story) (story_id : Z)
    : M (list Story) :=
  let* story := _get_story story_id in
  let* score := subscript (raw_score story) "score" in
  if score <? 20 then ret stories
  else
    let* summary := summary_of story in
    let* title := subscript (raw_title story) "title" in
    ret (stories ++
         [ {| story_title := title;
              story_score := score;
              story_url := raw_url story;
              story_text := match summary with
                            | None => raw_text story
                            | Some s => Some s
                            end |} ])%list.

Definition _get_top_stories : M (list Story) :=
  let* ids := _get_top_storie_ids in
  let top_stories := firstn hacker_news_num_top_stories ids in
  for_each story_step top_stories [].

Definition _store_summaries (me : self) (summaries : list string) : M unit :=
  store_summaries_under "hacker_news" (_bucket_name me) summaries.

Definition _stylize_story (story : Story) : string :=
  let url_or_text :=
    if truthy_str (story_url story)
    then Some ("[View Link](" ++ str_of_optional (story_url story) ++ ")")
    else story_text story in
  _MARKDOWN_FORMAT
    (story_title story)
    (str_of_int (story_score story))
    (str_of_optional url_or_text).

(** [HackerNewsRetriever.__call__] *)
Definition __call__ (me : self) : M unit :=
  let* stories := _get_top_stories in
  match stories with
  | [] => print "No suitable stories found on Hacker News."
  | _ =>
      let styled_attachments := map _stylize_story stories in
      _store_summaries me styled_attachments
  end.

Definition lambda_handler (event : dict) : M response :=
  handler "HackerNewsRetriever" false
    (let* retriever := __init__ in __call__ retriever)
    event.
End Job.
End hacker_news.

(** ** tech_feed.py *)

Module tech_feed.
Section Job.
Context `{Library} `{World}.

Definition _MARKDOWN_FORMAT (title feed_name url summary : string) : string :=
  nl ++ "# " ++ title ++ nl ++ nl
  ++ "[View on " ++ feed_name ++ "](" ++ url ++ ")" ++ nl ++ nl
  ++ summary ++ nl.

Definition tech_feed_max_entries_per_day : nat := 10.
Definition threshold_days : Z := 1.

Record self := {
  _bucket_name : string;
  _tech_feed_urls : list (string * string);
  _threshold : datetime
}.

(** [TechFeed.__init__] *)
Definition __init__ : M self :=
  match create_client_error with
  | Some e => raise e
  | None =>
      let* bucket := environ_get "BUCKET_NAME" in
      let* feeds := lift feed_toml in
      ret {| _bucket_name := bucket;
             _tech_feed_urls := feeds;
             _threshold := now - timedelta_days threshold_days |}
  end.

(** [entry.get("date_parsed") or entry.get("published_parsed")] *)
Definition entry_date (entry : Entry) : option struct_time :=
  match date_parsed entry with
  | Some d => Some d
  | None => published_parsed entry
  end.

(** [datetime.fromtimestamp(time.mktime(date_))] *)
Definition published_dt (date_ : struct_time) : result datetime :=
  match mktime date_ with
  | Ok t => fromtimestamp t
  | Raise e => Raise e
  end.

(** One turn of the loop of [_filter_entries]. *)
Definition filter_step (me : self) (filtered_entries : list Entry)
    (entry : Entry) : M (list Entry) :=
  match entry_date entry with
  | None =>
      let* link := attribute (entry_link entry) "link" in
      print ("date_ is None: " ++ link) >>
      emit (Dump (DEntry entry)) >>
      ret filtered_entries
  | Some date_ =>
      match published_dt date_ with
      | Raise e =>
          print ("Error converting date: " ++ str_of_exn e) >>
          emit (Dump (DTraceback e)) >>
          let* link := attribute (entry_link entry) "link" in
          print ("entry: " ++ link) >>
          emit (Dump (DEntry entry)) >>
          ret filtered_entries
      | Ok dt =>
          if _threshold me <? dt
          then ret (filtered_entries ++ [entry])%list
          else ret filtered_entries
      end
  end.

Definition _filter_entries (me : self) (entries : list Entry)
    : M (list Entry) :=
  for_each (filter_step me) entries [].

Definition _retrieve_article (entry : Entry) (feed_name : string)
    : M Article :=
  try_except
    (let* link := attribute (entry_link entry) "link" in
     emit (HttpGet link) >>
     let* page := lift (requests_get link) in
     let* text := lift (article_text page) in
     let* title := attribute (entry_title entry) "title" in
     ret {| art_feed_name := feed_name;
            art_title := title;
            art_url := link;
            art_text := text;
            art_summary := "" |})
    any_exception
    (fun e =>
       raise (Exn Exception
                ("Error raised while retrieving article: " ++ str_of_exn e))).

Definition _store_summaries (me : self) (summaries : list string) : M unit :=
  store_summaries_under "tech_feed" (_bucket_name me) summaries.

Definition _stylize_article (article : Article) : string :=
  _MARKDOWN_FORMAT
    (art_title article) (art_feed_name article)
    (art_url article) (art_summary article).

Definition _system_instruction : string :=
  "ユーザーから記事のタイトルと文章が与えられるので、内容をよく読み、日本語でとても詳細な要約を作成してください。" ++ nl
  ++ "与えられる文章はHTMLから抽出された文章なので、一部情報が欠落していたり、数式、コード、不必要な文章などが含まれている場合があります。" ++ nl
  ++ "要約以外の出力は不要です。".

Definition _contents_format (title text : string) : string :=
  title ++ nl ++ nl ++ "本文:" ++ nl ++ text.

Definition _summarize_article (article : Article) : M string :=
  if String.eqb (art_text article) "" || isspace (art_text article)
  then
    print ("Skipping summarization for " ++ art_url article
           ++ " due to empty content.") >>
    ret "Content could not be retrieved or was empty."
  else
    let contents :=
      _contents_format (art_title article)
        (str_prefix 20000 (art_text article)) in
    try_except
      (emit (GenerateContent contents _system_instruction) >>
       lift (generate_content contents _system_instruction))
      any_exception
      (fun e =>
         print ("Error during summarization for " ++ art_url article
                ++ ": " ++ str_of_exn e) >>
         ret ("Error summarizing content: " ++ str_of_exn e)).

(** [entries[: cap]] when there are more than [cap] of them *)
Definition cap_entries (entries : list Entry) : list Entry :=
  if (tech_feed_max_entries_per_day <? length entries)%nat
  then firstn tech_feed_max_entries_per_day entries
  else entries.

(** One turn of the inner loop of [__call__]. *)
Definition entry_step (feed_name : string) (markdowns : list string)
    (entry : Entry) : M (list string) :=
  let* article := _retrieve_article entry feed_name in
  let* summary := _summarize_article article in
  let article' :=
    {| art_feed_name := art_feed_name article;
       art_title := art_title article;
       art_url := art_url article;
       art_text := art_text article;
       art_summary := summary |} in
  emit (Sleep 2) >>
  ret (markdowns ++ [_stylize_article article'])%list.

(** One turn of the outer loop of [__call__]. *)
Definition feed_step (me : self) (markdowns : list string)
    (feed : string * string) : M (list string) :=
  let feed_name := fst feed in
  let feed_url := snd feed in
  emit (FeedParse feed_url) >>
  let* feed_parser := lift (feedparser_parse feed_url) in
  let* entries := _filter_entries me feed_parser in
  for_each (entry_step feed_name) (cap_entries entries) markdowns.

(** The two nested loops of [__call__]. *)
Definition collect_markdowns (me : self) : M (list string) :=
  for_each (feed_step me) (_tech_feed_urls me) [].

(** [TechFeed.__call__] *)
Definition __call__ (me : self) : M unit :=
  let* markdowns := collect_markdowns me in
  _store_summaries me markdowns.

Definition lambda_handler (event : dict) : M response :=
  handler "TechFeed" true
    (let* tech_feed_ := __init__ in __call__ tech_feed_)
    event.
End Job.
End tech_feed.

(** ** github_trending.py: the loop of [_retrieve_repositories]

    What the loop makes of the texts of the elements it has found in the
    page; finding them is the business of the page parser. *)

(** [s.lstrip()], [s.rstrip()] with the characters to drop given by [p] *)
Fixpoint lstrip_with (p : ascii -> bool) (s : string) : string :=
  match s with
  | EmptyString => ""
  | String c s' => if p c then lstrip_with p s' else s
  end.

Fixpoint rstrip_with (p : ascii -> bool) (s : string) : string :=
  match s with
  | EmptyString => ""
  | String c s' =>
      match rstrip_with p s' with
      | EmptyString => if p c then "" else String c ""
      | rest => String c rest
      end
  end.

(** [s.strip()] *)
Definition strip (s : string) : string :=
  rstrip_with is_py_space (lstrip_with is_py_space s).

(** [s.replace(c, "")] for a one-character [c] *)
Fixpoint remove_char (x : ascii) (s : string) : string :=
  match s with
  | EmptyString => ""
  | String c s' =>
      if Ascii.eqb c x then remove_char x s' else String c (remove_char x s')
  end.

(** The blanks [int] skips around a literal: the ASCII ones, and the two
    other blanks below 256. *)
Definition is_int_space (c : ascii) : bool :=
  let n := nat_of_ascii c in
  ((9 <=? n) && (n <=? 13) || (n =? 32) || (n =? 133) || (n =? 160))%nat.

Definition is_digit (c : ascii) : bool :=
  let n := nat_of_ascii c in ((48 <=? n) && (n <=? 57))%nat.

Definition digit_value (c : ascii) : Z := Z.of_nat (nat_of_ascii c) - 48.

(** The digits of a decimal literal: digits, with single underscores
    allowed between two digits.  [after_digit] tells whether the
    character before was a digit. *)
Fixpoint literal_digits (after_digit : bool) (s : string) : option (list Z) :=
  match s with
  | EmptyString => if after_digit then Some [] else None
  | String c s' =>
      if is_digit c then
        match literal_digits true s' with
        | Some ds => Some (digit_value c :: ds)
        | None => None
        end
      else if Ascii.eqb c "_" && after_digit then literal_digits false s'
      else None
  end.

Definition digits_value (ds : list Z) : Z :=
  fold_left (fun acc d => acc * 10 + d) ds 0.

(** [int(s)] for a str, in base 10: blanks around, an optional sign, the
    digits; more than 4300 digits are refused.  The messages are cut
    before the part that quotes the argument. *)
Definition py_int (s : string) : result Z :=
  let literal := rstrip_with is_int_space (lstrip_with is_int_space s) in
  let signed :=
    match literal with
    | String c rest =>
        if Ascii.eqb c "+" then (1, rest)
        else if Ascii.eqb c "-" then (-1, rest)
        else (1, literal)
    | EmptyString => (1, literal)
    end in
  match literal_digits false (snd signed) with
  | None => Raise (Exn ValueError "invalid literal for int() with base 10")
  | Some ds =>
      if (4300 <? Z.of_nat (length ds))
      then Raise (Exn ValueError
                    "Exceeds the limit (4300 digits) for integer string conversion")
      else Ok (fst signed * digits_value ds)
  end.

(** The texts of the three elements the loop looks up for one
    repository heading; [None] where the look-up finds nothing. *)
Record Element := {
  anchor_text : option string;
  paragraph_text : option string;
  stargazers_text : option string
}.

(** The body of the loop of [_retrieve_repositories]. *)
Definition repository_of_element (repo : Element) : result Repository :=
  match anchor_text repo with
  | None =>
      Raise (Exn AttributeError "'NoneType' object has no attribute 'text'")
  | Some a =>
      let name := remove_char " " (remove_char "010" (strip a)) in
      let description :=
        match paragraph_text repo with
        | Some p => Some (strip p)
        | None => None
        end in
      match stargazers_text repo with
      | None =>
          Raise (Exn AttributeError
                   "'NoneType' object has no attribute 'text'")
      | Some t =>
          match py_int (remove_char "," (strip t)) with
          | Ok stars =>
              Ok {| repo_name := name;
                    repo_description := description;
                    repo_link := "https://github.com/" ++ name;
                    repo_stars := stars |}
          | Raise e => Raise e
          end
      end
  end.

(** The loop of [_retrieve_repositories] over the headings found. *)
Fixpoint repositories_of_elements (elements : list Element)
    : result (list Repository) :=
  match elements with
  | [] => Ok []
  | repo :: rest =>
      match repository_of_element repo with
      | Ok repository =>
          match repositories_of_elements rest with
          | Ok repositories => Ok (repository :: repositories)
          | Raise e => Raise e
          end
      | Raise e => Raise e
      end
  end.

(** * Vocabulary of the properties *)

(** The urls a run has requested, in order. *)
Definition fetched (effs : list effect) : list string :=
  flat_map (fun e => match e with HttpGet u => [u] | _ => [] end) effs.

(** The objects a run has asked the blob store to put, in order. *)
Definition puts (effs : list effect) : list (string * string * string) :=
  flat_map (fun e => match e with
                     | PutObject b k body => [(b, k, body)]
                     | _ => []
                     end) effs.

(** The texts a run has sent to the summarizer, in order. *)
Definition summarized (effs : list effect) : list string :=
  flat_map (fun e => match e with
                     | GenerateContent contents _ => [contents]
                     | _ => []
                     end) effs.

(** The seconds a run has slept. *)
Definition slept (effs : list effect) : Z :=
  fold_right (fun e total => match e with
                             | Sleep n => n + total
                             | _ => total
                             end) 0 effs.


(** A character that is neither a space nor a line break. *)
Definition is_solid (c : ascii) : bool :=
  negb (Ascii.eqb c " ") && negb (Ascii.eqb c "010").

(** A run fragment that only printed. *)
Definition quiet (effs : list effect) : Prop :=
  Forall (fun e => is_job_effect e = false) effs.

(** A computation that neither changes the store nor asks for a put. *)
Definition leaves_store {A} (m : M A) : Prop :=
  forall s, final (m s) = s /\ puts (effects (m s)) = [].

(** An HTTP status of the server-error class. *)
Definition server_side (code : Z) : Prop := 500 <= code < 600.

Section TechFeedVocabulary.
Context `{Library} `{World}.
Import tech_feed.

(** The date the filter goes by: the one the entry carries as
    [date_parsed], and only without it the one it carries as
    [published_parsed]. *)
Definition reads_date (entry : Entry) (d : struct_time) : Prop :=
  date_parsed entry = Some d
  \/ (date_parsed entry = None /\ published_parsed entry = Some d).

(** The date is turned into seconds, and the seconds into a datetime. *)
Definition converts (d : struct_time) (dt : datetime) : Prop :=
  exists t, mktime d = Ok t /\ fromtimestamp t = Ok dt.


(** The entry has a date, and the date converts. *)
Definition datable (entry : Entry) : Prop :=
  exists d dt, reads_date entry d /\ converts d dt.

(** Whether an entry passes the date filter, read off its two date
    fields: the first of them that is there converts to a datetime
    after the threshold. *)
Definition survives (me : self) (entry : Entry) : bool :=
  let after (d : struct_time) :=
    match mktime d with
    | Ok t =>
        match fromtimestamp t with
        | Ok dt => _threshold me <? dt
        | Raise _ => false
        end
    | Raise _ => false
    end in
  match date_parsed entry, published_parsed entry with
  | Some d, _ => after d
  | None, Some d => after d
  | None, None => false
  end.

(** Whether the loop gets past an entry: it does unless the entry has
    neither a date that converts nor a link to print. *)
Definition passable (entry : Entry) : bool :=
  match entry_link entry with
  | Some _ => true
  | None =>
      match entry_date entry with
      | Some date_ =>
          match published_dt date_ with
          | Ok _ => true
          | Raise _ => false
          end
      | None => false
      end
  end.

(** What the loop prints for one entry. *)
Definition diagnostics (entry : Entry) : list effect :=
  let named (prefix : string) :=
    match entry_link entry with
    | Some link => [Print (prefix ++ link); Dump (DEntry entry)]
    | None => []
    end in
  match entry_date entry with
  | None => named "date_ is None: "
  | Some date_ =>
      match published_dt date_ with
      | Ok _ => []
      | Raise e =>
          [Print ("Error converting date: " ++ str_of_exn e);
           Dump (DTraceback e)] ++ named "entry: "
      end
  end.

End TechFeedVocabulary.

Section JobVocabulary.
Context `{Library} `{World}.

(** The fragments one language contributes to the GitHub Trending
    digest: those of its repositories, or none when its page cannot be
    fetched or read. *)
Definition rendered_language (language : string) : list string :=
  match requests_get (github_trending.url_format language) with
  | Ok page =>
      match trending_repositories page with
      | Ok repositories =>
          map github_trending._stylize_repository_info repositories
      | Raise _ => []
      end
  | Raise _ => []
  end.

(** What the loop over the languages does for one language. *)
Definition language_effects (language : string) : list effect :=
  HttpGet (github_trending.url_format language) ::
  match requests_get (github_trending.url_format language) with
  | Ok page =>
      match trending_repositories page with
      | Ok _ => []
      | Raise e =>
          [Print ("Error processing language " ++ language ++ ": "
                  ++ str_of_exn e); Dump (DTraceback e)]
      end
  | Raise e =>
      [Print ("Error processing language " ++ language ++ ": "
              ++ str_of_exn e); Dump (DTraceback e)]
  end.

(** The entries of one feed the tech feed job works on: those that
    pass the date filter, cut at the cap. *)
Definition selected (me : tech_feed.self) (feed : string * string)
    : list Entry :=
  match feedparser_parse (snd feed) with
  | Ok parsed => tech_feed.cap_entries (List.filter (survives me) parsed)
  | Raise _ => []
  end.

(** The digest separator. *)
Definition separator : string := nl ++ "---" ++ nl.

(** What the specification says of the stored text of a Hacker News
    story with inline text: the band is taken on the length of the
    stripped text. *)
Definition stored_text_follows_plain_length : Prop :=
  forall story_id story title score text s stories,
    hn_item story_id = Ok story ->
    raw_title story = Some title ->
    raw_score story = Some score -> 20 <= score ->
    raw_text story = Some text -> text <> "" ->
    res (hacker_news.story_step [] story_id s) = Ok stories ->
    let plain := hacker_news._cleanse_text text in
    exists st,
      stories = [st]
      /\ (100 < len plain < 10000 ->
            exists out,
              generate_content (hacker_news._contents_format title plain)
                hacker_news._system_instruction = Ok out
              /\ story_text st = Some out)
      /\ (len plain <= 100 \/ 10000 <= len plain ->
            story_text st = Some plain).

End JobVocabulary.

(** What the specification says of an event that is neither
    scheduler-shaped nor carries a requestContext key: the job is not
    started and the answer is a bare status of the server-error class. *)
Definition no_action_is_server_side (lambda_handler : dict -> M response)
    : Prop :=
  forall event s,
    from_scheduler event = false ->
    dict_get event "requestContext" = None ->
    exists r,
      res (lambda_handler event s) = Ok r
      /\ server_side (statusCode r)
      /\ headers r = None /\ body r = None
      /\ final (lambda_handler event s) = s
      /\ quiet (effects (lambda_handler event s)).

(** The three handlers, each with the name it prints and the job it
    starts. *)
Definition handlers `{Library} `{World}
    : list ((dict -> M response) * string * M unit) :=
  [ (github_trending.lambda_handler, "GithubTrending",
     bind github_trending.__init__ github_trending.__call__);
    (hacker_news.lambda_handler, "HackerNewsRetriever",
     bind hacker_news.__init__ hacker_news.__call__);
    (tech_feed.lambda_handler, "TechFeed",
     bind tech_feed.__init__ tech_feed.__call__) ].

(** The response of a handler whose job raised [e]. *)
Definition failure_response (event : dict) (e : exn) : response :=
  if dict_has event "requestContext"
  then json_response 500 ("Internal server error: " ++ str_of_exn e)
  else bare_response 500.

(** The response of a handler that started its job, by how the job
    ended. *)
Definition job_response {A} (event : dict) (job_name : string)
    (job_result : result A) : response :=
  match job_result with
  | Ok _ => json_response 200 (job_name ++ " triggered successfully")
  | Raise e => failure_response event e
  end.

(** ** Test doubles

    A library and a family of worlds that answer on the inputs of the
    examples below.  The library double decodes by table; its tag
    stripper drops everything between an opening and a closing angle
    bracket; its clock reads a [struct_time] as UTC. *)

Module Demo.
Fixpoint strip_tags (inside : bool) (s : string) : string :=
  match s with
  | EmptyString => ""
  | String c s' =>
      if inside
      then strip_tags (negb (Ascii.eqb c ">")) s'
      else if Ascii.eqb c "<" then strip_tags true s'
           else String c (strip_tags false s')
  end.

(** Days from 1970-01-01 to a civil date. *)
Definition days_from_civil (y m d : Z) : Z :=
  let y' := if m <=? 2 then y - 1 else y in
  let era := y' / 400 in
  let yoe := y' - era * 400 in
  let doy := (153 * (if 2 <? m then m - 3 else m + 9) + 2) / 5 + d - 1 in
  let doe := yoe * 365 + yoe / 4 - yoe / 100 + doy in
  era * 146097 + doe - 719468.

Definition utc_seconds (t : struct_time) : result Z :=
  if (tm_year t <? 1) || (9999 <? tm_year t)
  then Raise (Exn OverflowError "mktime argument out of range")
  else Ok (days_from_civil (tm_year t) (tm_mon t) (tm_mday t) * 86400
           + tm_hour t * 3600 + tm_min t * 60 + tm_sec t).

Definition source_json (tag : string) : string :=
  "{" ++ dq ++ "source" ++ dq ++ ": " ++ dq ++ tag ++ dq ++ "}".

Definition decode_table (s : string) : result string :=
  if String.eqb s "eyJzb3VyY2UiOiAiYXdzLmV2ZW50cyJ9"
  then Ok (source_json "aws.events")
  else if String.eqb s "eyJzb3VyY2UiOiAibWFudWFsIn0="
  then Ok (source_json "manual")
  else if String.eqb s "e30=" then Ok "{}"
  else if String.eqb s "/w==" then Ok (String "255"%char EmptyString)
  else Raise (Exn BinasciiError "Incorrect padding").

Definition parse_table (s : string) : result value :=
  if String.eqb s (source_json "aws.events")
  then Ok (VDict [("source", VStr "aws.events")])
  else if String.eqb s (source_json "manual")
  then Ok (VDict [("source", VStr "manual")])
  else if String.eqb s "{}" then Ok (VDict [])
  else if String.eqb s "[]" then Ok (VList [])
  else Raise (Exn JSONDecodeError
                "Expecting value: line 1 column 1 (char 0)").

Definition python_repo : Repository :=
  {| repo_name := "psf/requests";
     repo_description := None;
     repo_link := "https://github.com/psf/requests";
     repo_stars := 1234 |}.

Definition lib : Library :=
  {| a2b_base64 := decode_table;
     utf8_decode := fun b =>
       if all_chars is_ascii_char b then Ok b
       else Raise (Exn UnicodeDecodeError
                     "'utf-8' codec can't decode byte 0xff in position 0: invalid start byte");
     json_loads := parse_table;
     get_text := strip_tags false;
     article_text := fun page => Ok (strip_tags false page);
     trending_repositories := fun page =>
       if String.eqb page "" then Ok [] else Ok [python_repo];
     mktime := utc_seconds;
     fromtimestamp := fun t => Ok (t * 1000000) |}.

(** 2024-05-02 12:00:00 UTC, in microseconds. *)
Definition noon : datetime := (19845 * 86400 + 12 * 3600) * 1000000.

Definition at_day (day hour : Z) : struct_time :=
  {| tm_year := 2024; tm_mon := 5; tm_mday := day;
     tm_hour := hour; tm_min := 0; tm_sec := 0;
     tm_wday := 0; tm_yday := 0; tm_isdst := 0 |}.

Definition down : exn := Exn RequestException "connection refused".

(** A world is given by what the network, the feeds, the summarizer and
    the blob store answer; the rest is fixed. *)
Definition world (get : string -> result string)
    (ids : result (list Z)) (item : Z -> result RawStory)
    (feed : string -> result (list Entry))
    (summarizer : string -> string -> result string)
    (put_error : option exn) : World :=
  {| os_environ := [("BUCKET_NAME", "nook-bucket")];
     today := "2024-05-02";
     now := noon;
     requests_get := get;
     hn_top_story_ids := ids;
     hn_item := item;
     feedparser_parse := feed;
     generate_content := summarizer;
     create_client_error := None;
     put_object_error := fun _ _ _ => put_error;
     languages_toml := Ok ["python"];
     feed_toml := Ok [("Blog", "https://blog.example/feed")] |}.

Definition no_page (url : string) : result string := Raise down.
Definition no_ids : result (list Z) := Raise down.
Definition no_item (id : Z) : result RawStory := Raise down.
Definition no_feed (url : string) : result (list Entry) := Raise down.
Definition canned (contents instruction : string) : result string :=
  Ok "SUMMARY".

(** The world in which nothing outside answers. *)
Definition silent : World :=
  world no_page no_ids no_item no_feed canned None.

(** Hacker News with one top story. *)
Definition hn (story : RawStory) : World :=
  world no_page (Ok [1]) (fun _ => Ok story) no_feed canned None.

Definition ask_story : RawStory :=
  {| raw_title := Some "Ask HN: What do you use?";
     raw_score := Some 42; raw_url := None; raw_text := None |}.

Definition scoreless_story : RawStory :=
  {| raw_title := Some "Hiring: engineers";
     raw_score := None;
     raw_url := Some "https://jobs.example"; raw_text := None |}.

Definition low_story : RawStory :=
  {| raw_title := Some "Show HN: A thing";
     raw_score := Some 5;
     raw_url := Some "https://thing.example"; raw_text := None |}.

Fixpoint xs (n : nat) : string :=
  match n with
  | O => ""
  | S n' => String "x" (xs n')
  end.

(** 105 characters of markup around 98 characters of text. *)
Definition markup : string := "<p>" ++ xs 98 ++ "</p>".

Definition markup_story : RawStory :=
  {| raw_title := Some "Tell HN: Short note";
     raw_score := Some 50; raw_url := None; raw_text := Some markup |}.

Definition hn_me : hacker_news.self :=
  {| hacker_news._bucket_name := "nook-bucket" |}.

(** A feed with two recent posts; the page of the first cannot be
    fetched. *)
Definition post1 : Entry :=
  {| entry_link := Some "https://blog.example/1";
     entry_title := Some "First";
     date_parsed := None; published_parsed := Some (at_day 2 9) |}.

Definition post2 : Entry :=
  {| entry_link := Some "https://blog.example/2";
     entry_title := Some "Second";
     date_parsed := None; published_parsed := Some (at_day 2 8) |}.

Definition blog_pages (url : string) : result string :=
  if String.eqb url "https://blog.example/2"
  then Ok "<p>Second post.</p>"
  else Raise down.

Definition blog : World :=
  world blog_pages no_ids no_item (fun _ => Ok [post1; post2]) canned None.





(** A post without a date, one whose date is out of range, and one
    that is a day old to the second. *)
Definition undated : Entry :=
  {| entry_link := Some "https://blog.example/3";
     entry_title := Some "Third";
     date_parsed := None; published_parsed := None |}.



(** An entry that carries a title and nothing else. *)
Definition bare : Entry :=
  {| entry_link := None; entry_title := Some "Untitled";
     date_parsed := None; published_parsed := None |}.


Definition tech_me : tech_feed.self :=
  {| tech_feed._bucket_name := "nook-bucket";
     tech_feed._tech_feed_urls := [("Blog", "https://blog.example/feed")];
     tech_feed._threshold := noon - 86400 * 1000000 |}.



(** A process environment without the bucket name. *)
Definition unconfigured : World :=
  {| os_environ := [("AWS_REGION", "eu-west-1")];
     today := "2024-05-02";
     now := noon;
     requests_get := no_page;
     hn_top_story_ids := no_ids;
     hn_item := no_item;
     feedparser_parse := no_feed;
     generate_content := canned;
     create_client_error := None;
     put_object_error := fun _ _ _ => None;
     languages_toml := Ok ["python"];
     feed_toml := Ok [("Blog", "https://blog.example/feed")] |}.

(** A repository heading as the trending page shows it. *)
Definition heading : Element :=
  {| anchor_text := Some (" psf /" ++ nl ++ "      requests ");
     paragraph_text := Some "  ";
     stargazers_text := Some (nl ++ "  52,345 ") |}.

(** Invocation payloads. *)
Definition scheduled : dict := [("source", VStr "aws.events")].

Definition post (fields : dict) : dict :=
  ("requestContext", VDict [("http", VDict [("method", VStr "POST")])])
  :: fields.

Definition e_acute : string := String "233"%char EmptyString.
End Demo.

(** * Properties *)

(** ** Laws of the run monad used below *)

Lemma bind_ok {A B} (m : M A) (f : A -> M B) s a :
  res (m s) = Ok a ->
  bind m f s =
  Outcome (res (f a (final (m s)))) (final (f a (final (m s))))
          (effects (m s) ++ effects (f a (final (m s)))).
Proof.
  intros Hm. unfold bind. destruct (m s) as [r s' effs]. simpl in *.
  subst r. by destruct (f a s').
Qed.

Lemma bind_raise {A B} (m : M A) (f : A -> M B) s e :
  res (m s) = Raise e ->
  bind m f s = Outcome (Raise e) (final (m s)) (effects (m s)).
Proof.
  intros Hm. unfold bind. destruct (m s) as [r s' effs]. simpl in *.
  by subst r.
Qed.

Lemma fetched_app effs1 effs2 :
  fetched (effs1 ++ effs2) = (fetched effs1 ++ fetched effs2)%list.
Proof. unfold fetched. by rewrite flat_map_app. Qed.

Lemma puts_app effs1 effs2 :
  puts (effs1 ++ effs2) = (puts effs1 ++ puts effs2)%list.
Proof. unfold puts. by rewrite flat_map_app. Qed.

(** ** Computations that leave the store alone *)

Lemma leaves_store_ret {A} (a : A) : leaves_store (ret a).
Proof. by intros s. Qed.

Lemma leaves_store_raise {A} (e : exn) : leaves_store (@raise A e).
Proof. by intros s. Qed.

Lemma leaves_store_lift {A} (r : result A) : leaves_store (lift r).
Proof. by destruct r; intros s. Qed.

Lemma leaves_store_subscript {A} (o : option A) k :
  leaves_store (subscript o k).
Proof. by destruct o; intros s. Qed.

Lemma leaves_store_emit (e : effect) :
  is_put e = false -> leaves_store (emit e).
Proof. by destruct e; intros He s. Qed.

Lemma leaves_store_print line : leaves_store (print line).
Proof. by intros s. Qed.

Lemma leaves_store_bind {A B} (m : M A) (f : A -> M B) :
  leaves_store m -> (forall a, leaves_store (f a)) -> leaves_store (bind m f).
Proof.
  intros Hm Hf s. unfold bind.
  destruct (Hm s) as [Hs Hp]. destruct (m s) as [[a|e] s1 effs1];
    simpl in Hs, Hp; subst s1; [|done].
  destruct (Hf a s) as [Hs' Hp']. destruct (f a s) as [r2 s2 effs2].
  simpl in *. by rewrite puts_app, Hp, Hp'.
Qed.

Lemma leaves_store_try {A} (m : M A) catches handler :
  leaves_store m -> (forall e, leaves_store (handler e)) ->
  leaves_store (try_except m catches handler).
Proof.
  intros Hm Hh s. unfold try_except.
  destruct (Hm s) as [Hs Hp]. destruct (m s) as [[a|e] s1 effs1];
    simpl in Hs, Hp; subst s1; [done|].
  destruct (catches e); [|done].
  destruct (Hh e s) as [Hs' Hp']. destruct (handler e s) as [r2 s2 effs2].
  simpl in *. by rewrite puts_app, Hp, Hp'.
Qed.

Lemma leaves_store_for_each {A B} (body : B -> A -> M B) xs :
  (forall acc x, leaves_store (body acc x)) ->
  forall acc, leaves_store (for_each body xs acc).
Proof.
  intros Hbody. induction xs as [|x xs IH]; intros acc; simpl.
  - apply leaves_store_ret.
  - apply leaves_store_bind; [apply Hbody | apply IH].
Qed.

Lemma leaves_store_attribute {A} (o : option A) name :
  leaves_store (attribute o name).
Proof. by destruct o; intros s. Qed.

(** Goes through a computation built from the pieces above. *)
Ltac leaves_store_tac :=
  repeat first
    [ apply leaves_store_ret
    | apply leaves_store_raise
    | apply leaves_store_lift
    | apply leaves_store_subscript
    | apply leaves_store_attribute
    | apply leaves_store_print
    | apply leaves_store_emit; reflexivity
    | apply leaves_store_bind; [|intros ?]
    | apply leaves_store_try; [|intros ?]
    | match goal with
      | |- leaves_store (if ?b then _ else _) => destruct b
      | |- leaves_store (match ?x with _ => _ end) => destruct x
      end ].

(** Printing is neither a request, nor a put, nor a sleep. *)
Lemma quiet_counts effs :
  quiet effs -> fetched effs = [] /\ puts effs = [] /\ slept effs = 0.
Proof.
  induction 1 as [|e effs He _ (IHf & IHp & IHs)]; [done|].
  destruct e; try discriminate; simpl; by rewrite ?IHf, ?IHp, ?IHs.
Qed.

(** ** tech_feed.py: the recency filter and the per-feed cap *)

Section TechFeedFilter.
Context `{Library} `{World}.
Import tech_feed.

Lemma reads_date_spec entry d :
  reads_date entry d <-> entry_date entry = Some d.
Proof.
  unfold reads_date, entry_date. destruct (date_parsed entry) as [d0|].
  - split; [by intros [?|[? _]] | by left].
  - split; [by intros [?|[_ ?]] | by right].
Qed.

Lemma converts_spec d dt : converts d dt <-> published_dt d = Ok dt.
Proof.
  unfold converts, published_dt. destruct (mktime d) as [t|x].
  - split; [by intros (t0 & [= <-] & ?) | by exists t].
  - split; [by intros (t0 & ? & _) | done].
Qed.


(** The test read off the fields is the test the loop makes. *)
Lemma survives_spec me entry :
  survives me entry =
  match entry_date entry with
  | None => false
  | Some date_ =>
      match published_dt date_ with
      | Ok dt => _threshold me <? dt
      | Raise _ => false
      end
  end.
Proof.
  unfold survives, entry_date, published_dt.
  destruct (date_parsed entry) as [d|];
    [|destruct (published_parsed entry) as [d|]; [|done]];
    (destruct (mktime d) as [t|]; [by destruct (fromtimestamp t) | done]).
Qed.


Lemma passable_spec entry :
  datable entry \/ entry_link entry <> None -> passable entry = true.
Proof.
  unfold passable. intros [(d & dt & Hd & Hdt)|Hlink].
  - apply reads_date_spec in Hd. apply converts_spec in Hdt.
    rewrite Hd, Hdt. by destruct (entry_link entry).
  - by destruct (entry_link entry).
Qed.

Lemma filter_step_spec me acc entry s :
  filter_step me acc entry s =
  Outcome (if passable entry
           then Ok (if survives me entry then acc ++ [entry] else acc)%list
           else Raise (Exn AttributeError "object has no attribute 'link'"))
          s (diagnostics entry).
Proof.
  rewrite survives_spec. unfold filter_step, passable, diagnostics.
  destruct (entry_date entry) as [d|].
  - destruct (published_dt d) as [dt|e].
    + destruct (entry_link entry); by destruct (_threshold me <? dt).
    + by destruct (entry_link entry).
  - by destruct (entry_link entry).
Qed.

Lemma diagnostics_quiet entry : quiet (diagnostics entry).
Proof.
  unfold diagnostics.
  destruct (entry_date entry) as [d|];
    [destruct (published_dt d)|]; destruct (entry_link entry);
    repeat constructor.
Qed.

(** The loop of the filter, whatever the entries: it only prints, and
    what it returns, when it returns, are the entries that pass. *)
Lemma filter_loop_frame me entries : forall acc s,
  let o := for_each (filter_step me) entries acc s in
  final o = s
  /\ quiet (effects o)
  /\ (forall kept, res o = Ok kept ->
        kept = (acc ++ List.filter (survives me) entries)%list).
Proof.
  induction entries as [|e es IH]; intros acc s; simpl.
  - split; [done|]. split; [constructor|].
    intros kept [= <-]. by rewrite app_nil_r.
  - unfold bind. rewrite filter_step_spec. destruct (passable e).
    + specialize (IH (if survives me e then acc ++ [e] else acc)%list s).
      destruct (for_each (filter_step me) es _ s) as [r s1 effs].
      simpl in IH |- *. destruct IH as (-> & Hq & Hok).
      split; [done|].
      split; [apply Forall_app; split; [apply diagnostics_quiet | done]|].
      intros kept Hkept. rewrite (Hok kept Hkept).
      destruct (survives me e); simpl; [by rewrite <- app_assoc | done].
    + simpl. split; [done|]. split; [apply diagnostics_quiet | done].
Qed.

End TechFeedFilter.

Section TechFeedClaims.
Context `{Library} `{World}.
Import tech_feed.


(** What one turn of the inner loop of [__call__] does: it requests the
    entry's link when the entry has one, leaves the store alone, and
    appends one Markdown fragment when it returns. *)
Lemma entry_step_spec feed_name acc entry s :
  let o := entry_step feed_name acc entry s in
  match entry_link entry with
  | Some link => fetched (effects o) = [link]
  | None => fetched (effects o) = [] /\ exists x, res o = Raise x
  end
  /\ puts (effects o) = []
  /\ final o = s
  /\ (forall mds, res o = Ok mds -> exists md, mds = (acc ++ [md])%list).
Proof.
  unfold entry_step, _retrieve_article, _summarize_article.
  unfold bind, try_except, attribute, emit, lift, ret, raise, print. simpl.
  destruct (entry_link entry) as [link|]; simpl;
    [|split; [split; [done | by eexists] | by repeat split]].
  destruct (requests_get link) as [page|e]; simpl; [|by repeat split].
  destruct (article_text page) as [text|e]; simpl; [|by repeat split].
  destruct (entry_title entry) as [title|]; simpl; [|by repeat split].
  destruct (String.eqb text "" || isspace text); simpl.
  - repeat split; eauto. intros mds [= <-]. eauto.
  - destruct (generate_content _ _); simpl; repeat split; eauto;
      intros mds [= <-]; eauto.
Qed.

Lemma entries_loop_spec feed_name entries : forall acc s,
  let o := for_each (entry_step feed_name) entries acc s in
  (exists k, map Some (fetched (effects o))
             = map entry_link (firstn k entries))
  /\ puts (effects o) = []
  /\ final o = s
  /\ (forall mds, res o = Ok mds ->
        map Some (fetched (effects o)) = map entry_link entries
        /\ length mds = (length acc + length entries)%nat).
Proof.
  induction entries as [|e es IH]; intros acc s; simpl.
  - split; [by exists 0%nat|]. split; [done|]. split; [done|].
    intros mds [= <-]. simpl. split; [done | lia].
  - pose proof (entry_step_spec feed_name acc e s) as Hstep.
    unfold bind.
    destruct (entry_step feed_name acc e s) as [[acc'|x] s1 effs1].
    + simpl in Hstep. destruct Hstep as (Hf & Hp & -> & Hok).
      destruct (entry_link e) as [link|] eqn:Hlink;
        [|by destruct Hf as [_ [? ?]]].
      destruct (Hok acc' eq_refl) as [md ->].
      pose proof (IH (acc ++ [md])%list s) as Hrest.
      destruct (for_each (entry_step feed_name) es (acc ++ [md])%list s)
        as [r2 s2 effs2].
      simpl in Hrest. destruct Hrest as ((k & Hk) & Hp' & -> & Hok').
      simpl. rewrite puts_app, Hp, Hp'.
      split; [|split; [done|split; [done|]]].
      * exists (S k). rewrite fetched_app, map_app, Hf, Hk. simpl.
        by rewrite Hlink.
      * intros mds Hmds. destruct (Hok' mds Hmds) as [Hall Hlen].
        rewrite fetched_app, map_app, Hf, Hall.
        split; [done|]. rewrite length_app in Hlen. simpl in Hlen. lia.
    + simpl in Hstep. destruct Hstep as (Hf & Hp & -> & Hok). simpl.
      split; [|by repeat split].
      destruct (entry_link e) as [link|] eqn:Hlink.
      * exists 1%nat. rewrite Hf. simpl. rewrite Hlink. by destruct es.
      * exists 0%nat. by rewrite (proj1 Hf).
Qed.

End TechFeedClaims.





(** ** The invocation gate *)

Lemma quiet_app effs1 effs2 :
  quiet effs1 -> quiet effs2 -> quiet (effs1 ++ effs2).
Proof. intros H1 H2. apply Forall_app. by split. Qed.

Ltac quiet_tac :=
  repeat first [ assumption | apply quiet_app | constructor ].

Section GateFacts.
Context `{Library} `{World}.

(** Reading the body prints, and does nothing else. *)
Lemma body_string_quiet event s :
  final (body_string event s) = s /\ quiet (effects (body_string event s)).
Proof.
  unfold body_string, print_body_prefix.
  destruct (truthy _).
  - unfold bind, try_except, lift, print, emit, ret, raise.
    destruct (b64decode _) as [raw|e].
    + destruct (utf8_decode raw) as [text|e].
      * split; [done|]. repeat constructor.
      * cbn beta iota. destruct (_ || _); split; try done;
          repeat constructor.
    + cbn beta iota. destruct (_ || _); split; try done;
        repeat constructor.
  - unfold bind, print, emit, ret, raise.
    destruct (match dict_get event "body" with Some v => v | None => _ end);
      split; try done; repeat constructor.
Qed.

(** An event that is neither scheduler-shaped nor carries a
    requestContext key: the gate answers a bare 400 and the job is not
    started. *)
Lemma handler_unrecognized job_name note job event s :
  from_scheduler event = false ->
  dict_get event "requestContext" = None ->
  let o := handler job_name note job event s in
  res o = Ok (bare_response 400) /\ final o = s /\ quiet (effects o).
Proof.
  intros Hsrc Hrc. unfold handler, is_trigger_event, dict_has.
  rewrite Hsrc, Hrc.
  unfold bind, try_except, emit, print, ret.
  destruct note; repeat split; repeat constructor.
Qed.

(** A POST envelope whose body string parses to a JSON object without
    the scheduler's source tag: the gate answers 400 with a JSON body
    and the job is not started. *)
Lemma handler_post_mismatch job_name note job event s rc http method
    text d :
  from_scheduler event = false ->
  dict_get event "requestContext" = Some rc ->
  py_get rc "http" (VDict []) = Ok http ->
  py_get http "method" VNone = Ok method ->
  is_str method "POST" = true ->
  res (body_string event s) = Ok (VStr text) ->
  json_loads text = Ok (VDict d) ->
  from_scheduler d = false ->
  let o := handler job_name note job event s in
  res o = Ok (json_response 400
                "Invalid request: Expected 'source: aws.events' in POST body")
  /\ final o = s /\ quiet (effects o).
Proof.
  intros Hsrc Hrc Hhttp Hmethod Hpost Hbody Hjson Hd.
  destruct (body_string_quiet event s) as [Hfin Hq].
  assert (Hsource :
    is_str (match dict_get d "source" with Some x => x | None => VNone end)
      "aws.events" = false).
  { unfold from_scheduler in Hd. by destruct (dict_get d "source"). }
  unfold handler, is_trigger_event, dict_has, body_triggers.
  rewrite Hsrc, Hrc, Hhttp.
  unfold bind, try_except, lift, print, emit, ret, raise.
  rewrite Hmethod. cbn beta iota. rewrite Hpost. cbn beta iota.
  destruct (body_string event s) as [rb sb effs_b].
  simpl in Hbody, Hfin, Hq. subst rb sb.
  rewrite Hjson. cbn [py_get]. rewrite Hsource. cbn beta iota.
  split; [done|]. split; [done|]. quiet_tac.
Qed.
End GateFacts.

(** One goal for each of the three handlers. *)
Ltac split_handlers :=
  constructor; [|constructor; [|constructor; [|constructor]]]; cbn beta;
  [ unfold github_trending.lambda_handler
  | unfold hacker_news.lambda_handler
  | unfold tech_feed.lambda_handler ].

Section GateClaims.
Context `{Library} `{World}.

(** C5 (as amended).  For an event that is not scheduler-shaped and has
    no requestContext key, each of the three handlers answers the bare
    status code 400, without headers and without body, and does not
    start its job: the store is unchanged and nothing but prints
    happened. *)
Theorem unrecognized_event_gets_bare_400 (event : dict) (s : store) :
  from_scheduler event = false ->
  dict_get event "requestContext" = None ->
  Forall (fun lambda_handler : dict -> M response =>
            let o := lambda_handler event s in
            res o = Ok {| statusCode := 400; headers := None; body := None |}
            /\ final o = s /\ quiet (effects o))
    [github_trending.lambda_handler; hacker_news.lambda_handler;
     tech_feed.lambda_handler].
Proof.
  intros Hsrc Hrc.
  split_handlers; apply handler_unrecognized; assumption.
Qed.

(** C6.  For a POST envelope (not scheduler-shaped at top level) whose
    decoded body string parses to a JSON object in which the source is
    absent or different from aws.events, each of the three handlers
    answers status 400 with a JSON body and does not start its job: the
    store is unchanged and nothing but prints happened. *)
Theorem post_with_other_source_gets_400 (event : dict) (s : store)
    (request_context http method : value) (text : string) (body_json : dict) :
  from_scheduler event = false ->
  dict_get event "requestContext" = Some request_context ->
  py_get request_context "http" (VDict []) = Ok http ->
  py_get http "method" VNone = Ok method ->
  is_str method "POST" = true ->
  res (body_string event s) = Ok (VStr text) ->
  json_loads text = Ok (VDict body_json) ->
  from_scheduler body_json = false ->
  Forall (fun lambda_handler : dict -> M response =>
            let o := lambda_handler event s in
            (exists r, res o = Ok r /\ statusCode r = 400
                       /\ headers r = Some [("Content-Type", "application/json")]
                       /\ body r = Some (json_message
                            "Invalid request: Expected 'source: aws.events' in POST body"))
            /\ final o = s /\ quiet (effects o))
    [github_trending.lambda_handler; hacker_news.lambda_handler;
     tech_feed.lambda_handler].
Proof.
  intros Hsrc Hrc Hhttp Hmethod Hpost Hbody Hjson Hd.
  split_handlers;
    (edestruct handler_post_mismatch as (Hr & Hf & Hq);
     [exact Hsrc | exact Hrc | exact Hhttp | exact Hmethod | exact Hpost
     | exact Hbody | exact Hjson | exact Hd |]);
    (split; [|split; [exact Hf | exact Hq]]);
    (eexists; split; [exact Hr|]; repeat split; reflexivity).
Qed.

(** The two decoding failures the handlers catch: the body is replaced
    by the text of the empty JSON object and the answer is 400. *)
Lemma caught_decode_failure_gets_400 job_name note job fields s body_str e :
  let event := Demo.post fields in
  from_scheduler event = false ->
  truthy (match dict_get event "isBase64Encoded" with
          | Some v => v
          | None => VBool false
          end) = true ->
  dict_get event "body" = Some body_str ->
  match b64decode body_str with
  | Ok raw => utf8_decode raw = Raise e /\ exn_cls e = UnicodeDecodeError
  | Raise e' => e' = e /\ exn_cls e = BinasciiError
  end ->
  json_loads "{}" = Ok (VDict []) ->
  let o := handler job_name note job event s in
  res o = Ok (json_response 400
                "Invalid request: Expected 'source: aws.events' in POST body")
  /\ final o = s /\ quiet (effects o).
Proof.
  intros event Hsrc Hflag Hbody Hfail Hjson.
  eapply handler_post_mismatch with (text := "{}") (d := []);
    try done; try reflexivity.
  unfold body_string. rewrite Hflag, Hbody.
  unfold bind, try_except, lift, print, emit, ret, raise, of_class.
  destruct (b64decode body_str) as [raw|e'].
  - destruct Hfail as [-> Hcls]. rewrite Hcls. done.
  - destruct Hfail as [-> Hcls]. rewrite Hcls. done.
Qed.

(** C10 (the failing input).  A POST envelope flagged isBase64Encoded
    whose body is the one-character string U+00E9: base64.b64decode
    rejects it with a plain ValueError, which the inner except clause
    does not list, and each of the three handlers answers 500. *)
Theorem non_ascii_base64_body_gets_500 (s : store) :
  let event :=
    Demo.post [("isBase64Encoded", VBool true); ("body", VStr Demo.e_acute)] in
  Forall (fun lambda_handler : dict -> M response =>
            let o := lambda_handler event s in
            res o = Ok (json_response 500
                          "Internal server error: string argument should contain only ASCII characters")
            /\ statusCode (json_response 500 "") = 500
            /\ final o = s /\ quiet (effects o))
    [github_trending.lambda_handler; hacker_news.lambda_handler;
     tech_feed.lambda_handler].
Proof.
  intros event.
  split_handlers; unfold handler; subst event;
    (split; [reflexivity|]; split; [reflexivity|];
     split; [reflexivity|]; quiet_tac).
Qed.
End GateClaims.

(** C5 (as stated) fails: on the empty event the handler of the GitHub
    Trending job answers 400, which is no status of the server-error
    class. *)
Lemma unrecognized_event_is_not_server_side :
  ~ no_action_is_server_side
      (@github_trending.lambda_handler Demo.lib Demo.silent).
Proof.
  intros Hstated.
  destruct (Hstated [] ∅ eq_refl eq_refl) as (r & Hr & Hside & _).
  vm_compute in Hr. injection Hr as <-.
  unfold server_side in Hside. simpl in Hside. lia.
Qed.

Lemma unrecognized_event_gets_bare_400_witness :
  Forall (fun lambda_handler : dict -> M response =>
            let o := lambda_handler [("detail", VStr "manual run")] ∅ in
            res o = Ok {| statusCode := 400; headers := None; body := None |}
            /\ final o = ∅ /\ quiet (effects o))
    [@github_trending.lambda_handler Demo.lib Demo.silent;
     @hacker_news.lambda_handler Demo.lib Demo.silent;
     @tech_feed.lambda_handler Demo.lib Demo.silent].
Proof.
  apply (@unrecognized_event_gets_bare_400 Demo.lib Demo.silent
           [("detail", VStr "manual run")] ∅); reflexivity.
Defined.

Lemma post_with_other_source_gets_400_witness :
  Forall (fun lambda_handler : dict -> M response =>
            let o := lambda_handler
                       (Demo.post [("body", VStr (Demo.source_json "manual"))])
                       ∅ in
            (exists r, res o = Ok r /\ statusCode r = 400
                       /\ headers r = Some [("Content-Type", "application/json")]
                       /\ body r = Some (json_message
                            "Invalid request: Expected 'source: aws.events' in POST body"))
            /\ final o = ∅ /\ quiet (effects o))
    [@github_trending.lambda_handler Demo.lib Demo.silent;
     @hacker_news.lambda_handler Demo.lib Demo.silent;
     @tech_feed.lambda_handler Demo.lib Demo.silent].
Proof.
  apply (@post_with_other_source_gets_400 Demo.lib Demo.silent
           (Demo.post [("body", VStr (Demo.source_json "manual"))]) ∅
           (VDict [("http", VDict [("method", VStr "POST")])])
           (VDict [("method", VStr "POST")]) (VStr "POST")
           (Demo.source_json "manual") [("source", VStr "manual")]);
    reflexivity.
Defined.


(** ** Publishing *)

Section Publishing.
Context `{Library} `{World}.

(** [_store_summaries] asks for exactly one put, under today's key and
    with the joined fragments as body; the store holds the object when
    the put is accepted and is unchanged otherwise; only a ClientError
    is swallowed. *)
Lemma store_summaries_spec prefix bucket summaries s :
  let key := prefix ++ "/" ++ today ++ ".md" in
  let content := join separator summaries in
  let o := store_summaries_under prefix bucket summaries s in
  puts (effects o) = [(bucket, key, content)]
  /\ match put_object_error bucket key content with
     | None => res o = Ok tt /\ final o = <[(bucket, key) := content]> s
     | Some e =>
         final o = s
         /\ res o = if bool_decide (exn_cls e = ClientError)
                    then Ok tt else Raise e
     end.
Proof.
  cbv zeta.
  unfold store_summaries_under, try_except, put_object, separator,
    bind, print, emit, of_class.
  destruct (put_object_error _ _ _) as [e|]; [|done].
  destruct (bool_decide _); done.
Qed.
End Publishing.

(** ** hacker_news.py *)

Section HackerNewsFacts.
Context `{Library} `{World}.
Import hacker_news.

(** One turn of the loop over the story ids leaves the store alone. *)
Lemma story_step_frame stories story_id :
  leaves_store (story_step stories story_id).
Proof.
  unfold story_step, _get_story, summary_of, _summarize_story.
  leaves_store_tac.
Qed.

Lemma get_top_stories_frame : leaves_store _get_top_stories.
Proof.
  unfold _get_top_stories, _get_top_storie_ids. leaves_store_tac.
  apply leaves_store_for_each. intros. apply story_step_frame.
Qed.

(** A story below the score threshold adds nothing. *)
Lemma low_score_is_skipped stories story_id story score s :
  hn_item story_id = Ok story ->
  raw_score story = Some score -> score < 20 ->
  res (story_step stories story_id s) = Ok stories.
Proof.
  intros Hitem Hscore Hlow.
  unfold story_step, _get_story, subscript, bind, emit, lift, ret.
  rewrite Hitem, Hscore. apply Z.ltb_lt in Hlow. by rewrite Hlow.
Qed.

(** A story with neither a link nor a text is rendered with the text of
    Python's None in the place of the body. *)
Lemma stylize_story_without_url_and_text title score url :
  truthy_str url = false ->
  _stylize_story {| story_title := title; story_score := score;
                    story_url := url; story_text := None |}
  = _MARKDOWN_FORMAT title (str_of_int score) "None".
Proof. intros Hurl. unfold _stylize_story. simpl. by rewrite Hurl. Qed.
End HackerNewsFacts.

Section HackerNewsClaims.
Context `{Library} `{World}.
Import hacker_news.

(** C3 (as amended).  For a story that passes the score threshold and
    carries a non-empty inline text, the band is taken on the length of
    the raw text, tags included: when that length is strictly between
    100 and 10000 the stored text is what the summarizer returns for the
    title and the stripped text (and the turn raises when the
    summarizer raises); when it is at most 100 or at least 10000 the
    stored text is the stripped text. *)
Theorem stored_text_follows_raw_length (stories : list Story)
    (story_id : Z) (story : RawStory) (title : string) (score : Z)
    (text : string) (s : store) :
  hn_item story_id = Ok story ->
  raw_title story = Some title ->
  raw_score story = Some score -> 20 <= score ->
  raw_text story = Some text -> text <> "" ->
  let plain := get_text text in
  let o := story_step stories story_id s in
  let kept (stored : string) :=
    (stories ++ [ {| story_title := title; story_score := score;
                     story_url := raw_url story;
                     story_text := Some stored |} ])%list in
  _cleanse_text text = plain
  /\ (100 < len text < 10000 ->
        match generate_content (_contents_format title plain)
                _system_instruction with
        | Ok out => res o = Ok (kept out)
        | Raise e => res o = Raise e
        end)
  /\ (len text <= 100 \/ 10000 <= len text -> res o = Ok (kept plain)).
Proof.
  intros Hitem Htitle Hscore Hhigh Htext Hne plain o kept.
  assert (Hclean : _cleanse_text text = plain).
  { unfold _cleanse_text. by destruct text. }
  assert (Htruthy : truthy_str (Some text) = true) by by destruct text.
  assert (Hkeep : (score <? 20) = false) by by apply Z.ltb_ge.
  split; [done|].
  subst o. unfold story_step, _get_story, summary_of, _summarize_story,
    subscript, bind, emit, lift, ret, raise. simpl.
  rewrite Hitem. simpl. rewrite Hscore. simpl. rewrite Hkeep, Htext, Htruthy.
  simpl. split.
  - intros [Hlo Hhi].
    apply Z.ltb_lt in Hlo, Hhi. rewrite Hlo, Hhi. simpl.
    rewrite Htitle. simpl. rewrite Hclean.
    destruct (generate_content _ _) as [out|e]; simpl; done.
  - intros Hout.
    assert (Hband : (100 <? len text) && (len text <? 10000) = false).
    { apply andb_false_iff. destruct Hout; [left | right].
      - by apply Z.ltb_ge.
      - by apply Z.ltb_ge. }
    rewrite Hband. simpl. rewrite Htitle. simpl. by rewrite Hclean.
Qed.

(** C4.  When no story survives, [__call__] returns without a put: the
    store is unchanged and no put was asked for. *)
Theorem no_stories_no_write (me : self) (s : store) :
  res (_get_top_stories s) = Ok [] ->
  let o := __call__ me s in
  res o = Ok tt /\ final o = s /\ puts (effects o) = [].
Proof.
  intros Hnone o. subst o.
  destruct (get_top_stories_frame s) as [Hs Hp].
  unfold __call__, bind.
  destruct (_get_top_stories s) as [r1 s1 effs1].
  simpl in Hnone, Hs, Hp. subst r1 s1.
  unfold print, emit. simpl. by rewrite puts_app, Hp.
Qed.
End HackerNewsClaims.

(** C3 (as stated) fails: a text of 105 characters of markup around 98
    characters is summarized, although its stripped length is below the
    band. *)
Lemma stripped_length_does_not_decide :
  ~ @stored_text_follows_plain_length Demo.lib (Demo.hn Demo.markup_story).
Proof.
  intros Hstated.
  destruct (Hstated 1 Demo.markup_story "Tell HN: Short note" 50 Demo.markup ∅
              [ {| story_title := "Tell HN: Short note"; story_score := 50;
                   story_url := None; story_text := Some "SUMMARY" |} ])
    as (st & Hst & _ & Hshort); try reflexivity; try done.
  injection Hst as <-.
  assert (Hplain : len (@hacker_news._cleanse_text Demo.lib Demo.markup) <= 100)
    by (vm_compute; discriminate).
  specialize (Hshort (or_introl Hplain)).
  vm_compute in Hshort. discriminate.
Qed.

Lemma stored_text_follows_raw_length_witness :
  let title := "Tell HN: Short note" in
  let plain := @get_text Demo.lib Demo.markup in
  let o := @hacker_news.story_step Demo.lib (Demo.hn Demo.markup_story)
             [] 1 ∅ in
  let kept (stored : string) :=
    [ {| story_title := title; story_score := 50;
         story_url := None; story_text := Some stored |} ] in
  @hacker_news._cleanse_text Demo.lib Demo.markup = plain
  /\ (100 < len Demo.markup < 10000 ->
        match @generate_content (Demo.hn Demo.markup_story)
                (hacker_news._contents_format title plain)
                hacker_news._system_instruction with
        | Ok out => res o = Ok (kept out)
        | Raise e => res o = Raise e
        end)
  /\ (len Demo.markup <= 100 \/ 10000 <= len Demo.markup ->
        res o = Ok (kept plain)).
Proof.
  apply (@stored_text_follows_raw_length Demo.lib
           (Demo.hn Demo.markup_story) [] 1 Demo.markup_story
           "Tell HN: Short note" 50 Demo.markup ∅);
    [reflexivity | reflexivity | reflexivity | lia | reflexivity
    | discriminate].
Defined.

Lemma no_stories_no_write_witness :
  let o := @hacker_news.__call__ Demo.lib (Demo.hn Demo.low_story)
             Demo.hn_me ∅ in
  res o = Ok tt /\ final o = ∅ /\ puts (effects o) = [].
Proof.
  apply (@no_stories_no_write Demo.lib (Demo.hn Demo.low_story)
           Demo.hn_me ∅).
  reflexivity.
Defined.

(** C2 (the failing input).  A Hacker News item with a title and a score
    of 42 but neither url nor text is kept, and the digest the run puts
    shows the text of Python's None where the body should be: there is no
    placeholder. *)
Theorem story_without_url_and_text_renders_None :
  let o := @hacker_news.__call__ Demo.lib (Demo.hn Demo.ask_story)
             Demo.hn_me ∅ in
  let content :=
    nl ++ "# Ask HN: What do you use?" ++ nl ++ nl
    ++ "**Score**: 42" ++ nl ++ nl ++ "None" ++ nl in
  res (@hacker_news._get_top_stories Demo.lib (Demo.hn Demo.ask_story) ∅)
  = Ok [ {| story_title := "Ask HN: What do you use?"; story_score := 42;
            story_url := None; story_text := None |} ]
  /\ puts (effects o) = [("nook-bucket", "hacker_news/2024-05-02.md", content)]
  /\ final o !! ("nook-bucket", "hacker_news/2024-05-02.md") = Some content.
Proof. vm_compute. by repeat split. Qed.


(** ** github_trending.py *)

Section GithubTrendingFacts.
Context `{Library} `{World}.
Import github_trending.

(** A repository without a description, or with an empty one, is
    rendered with the fixed text. *)
Lemma stylize_repository_without_description repository :
  truthy_str (repo_description repository) = false ->
  _stylize_repository_info repository
  = _MARKDOWN_FORMAT (repo_name repository)
      (str_of_int (repo_stars repository)) (repo_link repository)
      "No description".
Proof. intros Hd. unfold _stylize_repository_info. by rewrite Hd. Qed.

Lemma language_step_spec markdowns language s :
  language_step markdowns language s =
  Outcome (Ok (markdowns ++ rendered_language language)%list) s
          (language_effects language).
Proof.
  unfold language_step, _retrieve_repositories, rendered_language,
    language_effects.
  unfold try_except, bind, print, emit, lift, ret, raise, any_exception.
  destruct (requests_get (url_format language)) as [page|e].
  - destruct (trending_repositories page) as [repos|e].
    + done.
    + cbn [app]. by rewrite app_nil_r.
  - cbn [app]. by rewrite app_nil_r.
Qed.

Lemma languages_loop_spec languages : forall markdowns s,
  for_each language_step languages markdowns s =
  Outcome (Ok (markdowns ++ flat_map rendered_language languages)%list) s
          (flat_map language_effects languages).
Proof.
  induction languages as [|l ls IH]; intros markdowns s; simpl.
  - unfold ret. by rewrite app_nil_r.
  - unfold bind. rewrite language_step_spec, IH.
    by rewrite <- app_assoc.
Qed.

Lemma language_effects_no_put languages :
  puts (flat_map language_effects languages) = [].
Proof.
  induction languages as [|l ls IH]; simpl; [done|].
  rewrite puts_app, IH, app_nil_r. unfold language_effects.
  destruct (requests_get _) as [page|];
    [destruct (trending_repositories page)|]; done.
Qed.
End GithubTrendingFacts.

(** ** tech_feed.py: the run *)

Section TechFeedRun.
Context `{Library} `{World}.
Import tech_feed.

(** An article without text, or with blanks only, gets the fixed text
    in the place of a summary, and the summarizer is not called. *)
Lemma summarize_article_without_text article s :
  String.eqb (art_text article) "" || isspace (art_text article) = true ->
  _summarize_article article s =
  Outcome (Ok "Content could not be retrieved or was empty.") s
    [Print ("Skipping summarization for " ++ art_url article
            ++ " due to empty content.")].
Proof. intros Hblank. unfold _summarize_article. by rewrite Hblank. Qed.

(** A failing summarizer degrades to an inline message. *)
Lemma summarize_article_never_raises article s :
  exists summary, res (_summarize_article article s) = Ok summary.
Proof.
  unfold _summarize_article.
  destruct (_ || _); [by eexists|].
  unfold try_except, bind, print, emit, lift, ret, raise, any_exception.
  destruct (generate_content _ _); by eexists.
Qed.

(** A page that cannot be fetched ends the loop over the entries: the
    wrapped exception leaves the loop and no later entry is touched. *)
Lemma failed_article_aborts_loop feed_name entry link rest markdowns s e :
  entry_link entry = Some link ->
  requests_get link = Raise e ->
  for_each (entry_step feed_name) (entry :: rest) markdowns s =
  Outcome
    (Raise (Exn Exception
              ("Error raised while retrieving article: " ++ str_of_exn e)))
    s [HttpGet link].
Proof.
  intros Hlink Hget. simpl.
  unfold entry_step, _retrieve_article, try_except, bind, attribute, emit,
    lift, ret, raise, any_exception.
  rewrite Hlink. simpl. by rewrite Hget.
Qed.

Lemma collect_markdowns_frame me : leaves_store (collect_markdowns me).
Proof.
  unfold collect_markdowns. apply leaves_store_for_each.
  intros markdowns feed. unfold feed_step, _filter_entries.
  leaves_store_tac.
  - apply leaves_store_for_each. intros filtered entry.
    unfold filter_step. leaves_store_tac.
  - apply leaves_store_for_each. intros acc entry.
    unfold entry_step, _retrieve_article, _summarize_article.
    leaves_store_tac.
Qed.

(** When the loops raise, [__call__] raises the same exception and
    publishes nothing. *)
Lemma failed_collect_publishes_nothing me s e :
  res (collect_markdowns me s) = Raise e ->
  let o := __call__ me s in
  res o = Raise e /\ final o = s /\ puts (effects o) = [].
Proof.
  intros Hraise o. subst o. unfold __call__, bind.
  destruct (collect_markdowns_frame me s) as [Hs Hp].
  destruct (collect_markdowns me s) as [r1 s1 effs1].
  simpl in *. by subst r1 s1.
Qed.
End TechFeedRun.

Section PublishingClaims.
Context `{Library} `{World}.

End PublishingClaims.



(** C1 (the failing input).  A feed with two recent entries, where the
    page of the first cannot be fetched: the wrapped exception leaves
    [__call__], the second entry is never requested, nothing is put, and
    the handler answers 500 to the scheduler. *)
Theorem failed_article_aborts_run :
  let o := @tech_feed.__call__ Demo.lib Demo.blog Demo.tech_me ∅ in
  let answer :=
    @tech_feed.lambda_handler Demo.lib Demo.blog Demo.scheduled ∅ in
  res (@tech_feed.__init__ Demo.blog ∅) = Ok Demo.tech_me
  /\ res (@tech_feed._filter_entries Demo.lib Demo.tech_me
            [Demo.post1; Demo.post2] ∅) = Ok [Demo.post1; Demo.post2]
  /\ res o = Raise (Exn Exception
                     "Error raised while retrieving article: connection refused")
  /\ fetched (effects o) = ["https://blog.example/1"]
  /\ puts (effects o) = []
  /\ final o = ∅
  /\ res answer = Ok {| statusCode := 500; headers := None; body := None |}
  /\ puts (effects answer) = []
  /\ final answer = ∅.
Proof. vm_compute. by repeat split. Qed.

(** * Further properties of the code *)

(** ** The gate, on every event *)

(** Equality of two effect lists up to the bracketing of appends. *)
Ltac list_eq :=
  cbn [app]; rewrite <- ?app_assoc; cbn [app]; rewrite ?app_nil_r;
  reflexivity.

Section GateTotal.
Context `{Library} `{World}.

(** What the gate does once it has decided: a triggered job runs once,
    between the two prints, and its outcome decides between 200 and 500;
    an untriggered invocation gets 400; an exception of the decision
    itself gets 500.  The store is the one the job (if any) left. *)
Lemma handler_cases job_name note job event s :
  let d := is_trigger_event event s in
  let o := handler job_name note job event s in
  let failure e :=
    if dict_has event "requestContext"
    then json_response 500 ("Internal server error: " ++ str_of_exn e)
    else bare_response 500 in
  match res d with
  | Ok true =>
      let oj := job (final d) in
      final o = final oj
      /\ (exists tail,
            effects o = (Dump (DEvent event) :: effects d
                         ++ Print ("Triggering " ++ job_name ++ " job...")
                         :: effects oj ++ tail)%list
            /\ quiet tail)
      /\ res o = match res oj with
                 | Ok _ => Ok (json_response 200
                                 (job_name ++ " triggered successfully"))
                 | Raise e => Ok (failure e)
                 end
  | Ok false =>
      final o = final d
      /\ (exists tail, effects o = (Dump (DEvent event) :: effects d ++ tail)%list
                       /\ quiet tail)
      /\ res o = Ok (if dict_has event "requestContext"
                     then json_response 400
                            "Invalid request: Expected 'source: aws.events' in POST body"
                     else bare_response 400)
  | Raise e =>
      final o = final d
      /\ (exists tail, effects o = (Dump (DEvent event) :: effects d ++ tail)%list
                       /\ quiet tail)
      /\ res o = Ok (failure e)
  end.
Proof.
  cbv zeta. unfold handler, bind, try_except, print, emit, ret, any_exception.
  destruct (is_trigger_event event s) as [[[|]|e] s1 effs1];
    cbn [res final effects].
  - destruct (job s1) as [[[]|e] s2 effs2]; cbn [res final effects].
    + split; [done|]. split; [|done].
      exists [Print (job_name ++ " job finished.")]. split; [|quiet_tac].
      list_eq.
    + destruct (dict_has event "requestContext");
        (split; [done|]); (split; [|done]);
        exists [Print "An error occurred during execution:";
                Dump (DTraceback e)];
        (split; [list_eq | quiet_tac]).
  - destruct (dict_has event "requestContext").
    + split; [done|]. split; [|done].
      exists [Print "Invocation source not recognized or payload mismatch. No action taken."].
      split; [list_eq | quiet_tac].
    + destruct note; (split; [done|]); (split; [|done]).
      * exists [Print "Invocation source not recognized or payload mismatch. No action taken.";
                Print "Returning 400 for unrecognized non-HTTP invocation."].
        split; [list_eq | quiet_tac].
      * exists [Print "Invocation source not recognized or payload mismatch. No action taken."].
        split; [list_eq | quiet_tac].
  - destruct (dict_has event "requestContext");
      (split; [done|]); (split; [|done]);
      exists [Print "An error occurred during execution:";
              Dump (DTraceback e)];
      (split; [list_eq | quiet_tac]).
Qed.
End GateTotal.

Lemma bind_lift_ok {A B} (a : A) (k : A -> M B) s :
  bind (lift (Ok a)) k s = k a s.
Proof. unfold bind, lift, ret. by destruct (k a s). Qed.

Lemma bind_lift_raise {A B} (e : exn) (k : A -> M B) s :
  bind (lift (Raise e)) k s = Outcome (Raise e) s [].
Proof. reflexivity. Qed.

Section GateBranches.
Context `{Library} `{World}.

Lemma is_trigger_event_scheduled event s :
  from_scheduler event = true ->
  is_trigger_event event s =
  Outcome (Ok true) s [Print "Invocation source: EventBridge"].
Proof. intros Hsrc. unfold is_trigger_event. by rewrite Hsrc. Qed.

(** The decision on a POST envelope is the decision on its body. *)
Lemma is_trigger_event_post event s rc http method :
  from_scheduler event = false ->
  dict_get event "requestContext" = Some rc ->
  py_get rc "http" (VDict []) = Ok http ->
  py_get http "method" VNone = Ok method ->
  is_str method "POST" = true ->
  is_trigger_event event s =
  bind (print "Invocation source: Function URL (POST)")
    (fun _ => bind (body_string event) body_triggers) s.
Proof.
  intros Hsrc Hrc Hhttp Hmethod Hpost. unfold is_trigger_event.
  rewrite Hsrc, Hrc, Hhttp, bind_lift_ok, Hmethod, bind_lift_ok.
  by rewrite Hpost.
Qed.

(** What the body decides, by what [json.loads] makes of it. *)
Lemma body_triggers_spec text s :
  body_triggers (VStr text) s =
  match json_loads text with
  | Ok (VDict d) =>
      if from_scheduler d
      then Outcome (Ok true) s
             [Print "Found 'source: aws.events' in request body."]
      else Outcome (Ok false) s
             [Print "Request body did not contain 'source: aws.events'."]
  | Ok v =>
      Outcome (Raise (Exn AttributeError
                        ("'" ++ type_name v
                         ++ "' object has no attribute 'get'"))) s []
  | Raise e =>
      if bool_decide (exn_cls e = JSONDecodeError)
      then Outcome (Ok false) s
             [Print ("Failed to decode JSON body: " ++ str_of_exn e);
              Print ("Body content was: " ++ text)]
      else Outcome (Raise e) s []
  end.
Proof.
  unfold body_triggers, try_except, bind, lift, print, emit, ret, raise,
    of_class.
  destruct (json_loads text) as [v|e].
  - destruct v as [| | | | |d]; cbn [py_get]; try reflexivity.
    unfold from_scheduler.
    destruct (dict_get d "source") as [v|]; cbn beta iota;
      [destruct (is_str v "aws.events")|]; reflexivity.
  - by destruct (bool_decide _).
Qed.

(** The decision on a POST envelope whose body is read as [text]. *)
Lemma is_trigger_event_post_body event s rc http method text :
  from_scheduler event = false ->
  dict_get event "requestContext" = Some rc ->
  py_get rc "http" (VDict []) = Ok http ->
  py_get http "method" VNone = Ok method ->
  is_str method "POST" = true ->
  res (body_string event s) = Ok (VStr text) ->
  let d := is_trigger_event event s in
  res d = res (body_triggers (VStr text) s)
  /\ final d = s
  /\ quiet (effects d).
Proof.
  intros Hsrc Hrc Hhttp Hmethod Hpost Hbody d. subst d.
  rewrite (is_trigger_event_post event s rc http method) by assumption.
  destruct (body_string_quiet event s) as [Hfin Hq].
  unfold bind, print, emit.
  destruct (body_string event s) as [rb sb effs_b].
  simpl in Hbody, Hfin, Hq. subst rb sb.
  rewrite body_triggers_spec.
  destruct (json_loads text) as [v|e].
  - destruct v as [| | | | |d]; try (split; [done|]; split; [done|]; quiet_tac).
    destruct (from_scheduler d); (split; [done|]; split; [done|]; quiet_tac).
  - destruct (bool_decide _); (split; [done|]; split; [done|]; quiet_tac).
Qed.
End GateBranches.

Lemma Forall_three {A} (P : A -> Prop) a b c :
  P a -> P b -> P c -> Forall P [a; b; c].
Proof. intros. by repeat constructor. Qed.

(** One goal for each entry of [handlers]. *)
Ltac split_jobs :=
  unfold handlers; apply Forall_three; cbn beta iota;
  [ unfold github_trending.lambda_handler
  | unfold hacker_news.lambda_handler
  | unfold tech_feed.lambda_handler ].

(** One goal for each of the three handlers. *)
Ltac three_handlers :=
  apply Forall_three; cbn beta;
  [ unfold github_trending.lambda_handler
  | unfold hacker_news.lambda_handler
  | unfold tech_feed.lambda_handler ].

Section GateExtras.
Context `{Library} `{World}.

(** X1.  Whatever the event and whatever the job does, a handler returns a
    response and never raises; the status is 200, 400 or 500; a caller
    that sent a requestContext gets JSON headers and a body, any other
    caller gets a bare status unless the job ran and returned. *)
Theorem handlers_always_answer (event : dict) (s : store) :
  Forall (fun lambda_handler : dict -> M response =>
            exists r,
              res (lambda_handler event s) = Ok r
              /\ (statusCode r = 200 \/ statusCode r = 400
                  \/ statusCode r = 500)
              /\ (dict_has event "requestContext" = true ->
                    headers r = Some [("Content-Type", "application/json")]
                    /\ body r <> None)
              /\ (dict_has event "requestContext" = false ->
                    statusCode r <> 200 ->
                    headers r = None /\ body r = None))
    [github_trending.lambda_handler; hacker_news.lambda_handler;
     tech_feed.lambda_handler].
Proof.
  three_handlers;
    match goal with
    | |- exists r, res (handler ?n ?b ?j event s) = _ /\ _ =>
        pose proof (handler_cases n b j event s) as Hc
    end;
    cbv zeta in Hc;
    destruct (res (is_trigger_event event s)) as [[|]|e];
    destruct Hc as (_ & _ & ->);
    try match goal with
        | |- context [match res ?oj with _ => _ end] => destruct (res oj)
        end;
    destruct (dict_has event "requestContext");
    eexists; (split; [reflexivity|]); cbn;
    repeat split; auto; try discriminate; try done.
Qed.

Lemma handler_scheduled job_name note job event s :
  from_scheduler event = true ->
  let oj := job s in
  let o := handler job_name note job event s in
  res o = Ok (job_response event job_name (res oj))
  /\ final o = final oj
  /\ exists tail,
       effects o =
       ([Dump (DEvent event);
         Print "Invocation source: EventBridge";
         Print ("Triggering " ++ job_name ++ " job...")]
        ++ effects oj ++ tail)%list
       /\ quiet tail.
Proof.
  intros Hsrc oj o.
  pose proof (handler_cases job_name note job event s) as Hc.
  cbv zeta in Hc. rewrite (is_trigger_event_scheduled event s Hsrc) in Hc.
  cbn [res final effects] in Hc.
  destruct Hc as (Hfin & (tail & Heff & Hq) & Hres).
  split; [|split; [exact Hfin|]].
  - subst o oj. rewrite Hres. unfold job_response, failure_response.
    by destruct (res (job s)).
  - exists tail. split; [|exact Hq]. subst o oj. rewrite Heff. list_eq.
Qed.

(** X2.  A scheduler-shaped event starts the job, once, on the store as it
    is; the answer is 200 when the job returns and 500 when it raises,
    and the store is the one the job left, also when it raised. *)
Theorem scheduled_event_runs_job (event : dict) (s : store) :
  from_scheduler event = true ->
  Forall (fun '(lambda_handler, job_name, job) =>
            let oj := job s in
            let o := lambda_handler event s in
            res o = Ok (job_response event job_name (res oj))
            /\ final o = final oj
            /\ exists tail,
                 effects o =
                 ([Dump (DEvent event);
                   Print "Invocation source: EventBridge";
                   Print ("Triggering " ++ job_name ++ " job...")]
                  ++ effects oj ++ tail)%list
                 /\ quiet tail)
    handlers.
Proof.
  intros Hsrc. split_jobs; by apply handler_scheduled.
Qed.
(** A handler that did not start its job, by what the decision was. *)
Lemma handler_not_started job_name note job event s rc r0 :
  dict_get event "requestContext" = Some rc ->
  final (is_trigger_event event s) = s ->
  quiet (effects (is_trigger_event event s)) ->
  res (is_trigger_event event s) = r0 ->
  r0 <> Ok true ->
  let o := handler job_name note job event s in
  res o = Ok (match r0 with
              | Raise e => json_response 500
                             ("Internal server error: " ++ str_of_exn e)
              | _ => json_response 400
                       "Invalid request: Expected 'source: aws.events' in POST body"
              end)
  /\ final o = s /\ quiet (effects o).
Proof.
  intros Hrc Hfin Hq Hres Hne o.
  pose proof (handler_cases job_name note job event s) as Hc.
  cbv zeta in Hc. rewrite Hres, Hfin in Hc. unfold dict_has in Hc.
  rewrite Hrc in Hc. subst o.
  destruct r0 as [[|]|e]; [done| |];
    destruct Hc as (-> & (tail & -> & Hqt) & ->);
    (split; [done|]); (split; [done|]); quiet_tac.
Qed.

(** A POST envelope whose body carries the scheduler's tag starts the
    job like a scheduled event does. *)
Lemma handler_post_trigger job_name note job event s rc http method text d :
  from_scheduler event = false ->
  dict_get event "requestContext" = Some rc ->
  py_get rc "http" (VDict []) = Ok http ->
  py_get http "method" VNone = Ok method ->
  is_str method "POST" = true ->
  res (body_string event s) = Ok (VStr text) ->
  json_loads text = Ok (VDict d) ->
  from_scheduler d = true ->
  let oj := job s in
  let o := handler job_name note job event s in
  res o = Ok (job_response event job_name (res oj))
  /\ final o = final oj
  /\ exists before tail,
       effects o = (before ++ effects oj ++ tail)%list
       /\ quiet before /\ quiet tail.
Proof.
  intros Hsrc Hrc Hhttp Hmethod Hpost Hbody Hjson Hd oj o.
  destruct (is_trigger_event_post_body event s rc http method text)
    as (Hres & Hfin & Hq); try assumption.
  rewrite body_triggers_spec, Hjson, Hd in Hres. cbn [res] in Hres.
  pose proof (handler_cases job_name note job event s) as Hc.
  cbv zeta in Hc. rewrite Hres, Hfin in Hc.
  destruct Hc as (Hf & (tail & Heff & Hqt) & Hr).
  split; [|split; [exact Hf|]].
  - subst o oj. rewrite Hr. unfold job_response, failure_response.
    by destruct (res (job s)).
  - exists (Dump (DEvent event) :: effects (is_trigger_event event s)
            ++ [Print ("Triggering " ++ job_name ++ " job...")])%list, tail.
    split; [subst o oj; rewrite Heff; list_eq|].
    split; [quiet_tac | exact Hqt].
Qed.

(** X3.  A POST envelope whose body, encoded or not, parses to a JSON object
    with the scheduler's source tag starts the job once; the answer is
    200 when the job returns and 500 with a JSON body when it raises. *)
Theorem post_with_scheduler_tag_runs_job (event : dict) (s : store)
    (request_context http method : value) (text : string) (body_json : dict) :
  from_scheduler event = false ->
  dict_get event "requestContext" = Some request_context ->
  py_get request_context "http" (VDict []) = Ok http ->
  py_get http "method" VNone = Ok method ->
  is_str method "POST" = true ->
  res (body_string event s) = Ok (VStr text) ->
  json_loads text = Ok (VDict body_json) ->
  from_scheduler body_json = true ->
  Forall (fun '(lambda_handler, job_name, job) =>
            let oj := job s in
            let o := lambda_handler event s in
            res o = Ok (job_response event job_name (res oj))
            /\ final o = final oj
            /\ exists before tail,
                 effects o = (before ++ effects oj ++ tail)%list
                 /\ quiet before /\ quiet tail)
    handlers.
Proof.
  intros. split_jobs; by eapply handler_post_trigger.
Qed.

(** X4.  A POST envelope whose body is no JSON text is answered with 400 and
    a JSON body; the job is not started. *)
Theorem post_with_unparsable_body_gets_400 (event : dict) (s : store)
    (request_context http method : value) (text : string) (e : exn) :
  from_scheduler event = false ->
  dict_get event "requestContext" = Some request_context ->
  py_get request_context "http" (VDict []) = Ok http ->
  py_get http "method" VNone = Ok method ->
  is_str method "POST" = true ->
  res (body_string event s) = Ok (VStr text) ->
  json_loads text = Raise e ->
  exn_cls e = JSONDecodeError ->
  Forall (fun lambda_handler : dict -> M response =>
            let o := lambda_handler event s in
            res o = Ok (json_response 400
                          "Invalid request: Expected 'source: aws.events' in POST body")
            /\ final o = s /\ quiet (effects o))
    [github_trending.lambda_handler; hacker_news.lambda_handler;
     tech_feed.lambda_handler].
Proof.
  intros Hsrc Hrc Hhttp Hmethod Hpost Hbody Hjson Hcls.
  destruct (is_trigger_event_post_body event s request_context http method
              text) as (Hres & Hfin & Hq); try assumption.
  rewrite body_triggers_spec, Hjson, Hcls in Hres. cbn in Hres.
  three_handlers;
    by apply (handler_not_started _ _ _ event s request_context (Ok false)).
Qed.

(** X5.  A POST envelope whose body is JSON but not a JSON object (a list, a
    string, a number, null) makes [body_json.get] raise; the inner except
    does not list that exception and the answer is 500 with a JSON body;
    the job is not started. *)
Theorem post_with_non_object_json_gets_500 (event : dict) (s : store)
    (request_context http method : value) (text : string) (body_json : value) :
  from_scheduler event = false ->
  dict_get event "requestContext" = Some request_context ->
  py_get request_context "http" (VDict []) = Ok http ->
  py_get http "method" VNone = Ok method ->
  is_str method "POST" = true ->
  res (body_string event s) = Ok (VStr text) ->
  json_loads text = Ok body_json ->
  (forall d, body_json <> VDict d) ->
  Forall (fun lambda_handler : dict -> M response =>
            let o := lambda_handler event s in
            (exists r, res o = Ok r /\ statusCode r = 500
                       /\ headers r = Some [("Content-Type", "application/json")])
            /\ final o = s /\ quiet (effects o))
    [github_trending.lambda_handler; hacker_news.lambda_handler;
     tech_feed.lambda_handler].
Proof.
  intros Hsrc Hrc Hhttp Hmethod Hpost Hbody Hjson Hshape.
  destruct (is_trigger_event_post_body event s request_context http method
              text) as (Hres & Hfin & Hq); try assumption.
  rewrite body_triggers_spec, Hjson in Hres.
  assert (Hraise : res (is_trigger_event event s)
                   = Raise (Exn AttributeError
                             ("'" ++ type_name body_json
                              ++ "' object has no attribute 'get'"))).
  { destruct body_json; try exact Hres. by destruct (Hshape d). }
  three_handlers;
    match goal with
    | |- context [handler ?n ?b ?j event s] =>
        destruct (handler_not_started n b j event s request_context
                    (Raise (Exn AttributeError
                             ("'" ++ type_name body_json
                              ++ "' object has no attribute 'get'")))
                    Hrc Hfin Hq Hraise ltac:(discriminate))
          as (Hr & Hf & Hqo)
    end;
    (split; [|split; [exact Hf | exact Hqo]]);
    eexists; (split; [exact Hr|]); by split.
Qed.

(** X6.  An event with a requestContext whose method is not POST (or absent)
    is answered with 400 and a JSON body without the body being looked
    at: the handler prints the event and one line, and nothing else
    happens. *)
Theorem other_method_gets_400 (event : dict) (s : store)
    (request_context http method : value) :
  from_scheduler event = false ->
  dict_get event "requestContext" = Some request_context ->
  py_get request_context "http" (VDict []) = Ok http ->
  py_get http "method" VNone = Ok method ->
  is_str method "POST" = false ->
  Forall (fun lambda_handler : dict -> M response =>
            lambda_handler event s =
            Outcome
              (Ok (json_response 400
                     "Invalid request: Expected 'source: aws.events' in POST body"))
              s
              [Dump (DEvent event);
               Print "Invocation source not recognized or payload mismatch. No action taken."])
    [github_trending.lambda_handler; hacker_news.lambda_handler;
     tech_feed.lambda_handler].
Proof.
  intros Hsrc Hrc Hhttp Hmethod Hpost.
  assert (Hd : is_trigger_event event s = Outcome (Ok false) s []).
  { unfold is_trigger_event.
    rewrite Hsrc, Hrc, Hhttp, bind_lift_ok, Hmethod, bind_lift_ok.
    by rewrite Hpost. }
  three_handlers;
    unfold handler, bind, try_except, print, emit, ret, dict_has;
    by rewrite Hd, Hrc.
Qed.

(** X7.  An event whose requestContext is not an object, or whose http entry
    is not an object, makes the method lookup raise; the answer is 500
    with a JSON body and the job is not started. *)
Theorem malformed_request_context_gets_500 (event : dict) (s : store)
    (request_context : value) :
  from_scheduler event = false ->
  dict_get event "requestContext" = Some request_context ->
  match py_get request_context "http" (VDict []) with
  | Ok http => exists e, py_get http "method" VNone = Raise e
  | Raise _ => True
  end ->
  Forall (fun lambda_handler : dict -> M response =>
            let o := lambda_handler event s in
            (exists r, res o = Ok r /\ statusCode r = 500
                       /\ headers r = Some [("Content-Type", "application/json")])
            /\ final o = s /\ quiet (effects o))
    [github_trending.lambda_handler; hacker_news.lambda_handler;
     tech_feed.lambda_handler].
Proof.
  intros Hsrc Hrc Hbad.
  assert (Hd : exists e, is_trigger_event event s = Outcome (Raise e) s []).
  { unfold is_trigger_event. rewrite Hsrc, Hrc.
    destruct (py_get request_context "http" (VDict [])) as [http|e].
    - destruct Hbad as [e He]. exists e.
      by rewrite bind_lift_ok, He.
    - by exists e. }
  destruct Hd as [e Hd].
  assert (Hfin : final (is_trigger_event event s) = s) by by rewrite Hd.
  assert (Hq : quiet (effects (is_trigger_event event s)))
    by (rewrite Hd; constructor).
  assert (Hraise : res (is_trigger_event event s) = Raise e) by by rewrite Hd.
  three_handlers;
    match goal with
    | |- context [handler ?n ?b ?j event s] =>
        destruct (handler_not_started n b j event s request_context
                    (Raise e) Hrc Hfin Hq Hraise ltac:(discriminate))
          as (Hr & Hf & Hqo)
    end;
    (split; [|split; [exact Hf | exact Hqo]]);
    eexists; (split; [exact Hr|]); by split.
Qed.

(** X8.  Without BUCKET_NAME in the environment no job can be constructed:
    a scheduled invocation is answered with 500 and nothing is requested
    or stored. *)
Theorem missing_bucket_name_gets_500 (event : dict) (s : store) :
  from_scheduler event = true ->
  List.find (fun kv => String.eqb (fst kv) "BUCKET_NAME") os_environ = None ->
  Forall (fun lambda_handler : dict -> M response =>
            let o := lambda_handler event s in
            (exists r, res o = Ok r /\ statusCode r = 500)
            /\ final o = s /\ quiet (effects o))
    [github_trending.lambda_handler; hacker_news.lambda_handler;
     tech_feed.lambda_handler].
Proof.
  intros Hsrc Henv.
  assert (Hgh : exists e, bind github_trending.__init__
                            (fun me => github_trending.__call__ me) s
                          = Outcome (Raise e) s []).
  { unfold github_trending.__init__, environ_get. rewrite Henv.
    by eexists. }
  assert (Hhn : exists e, bind hacker_news.__init__
                            (fun me => hacker_news.__call__ me) s
                          = Outcome (Raise e) s []).
  { unfold hacker_news.__init__, environ_get. rewrite Henv.
    destruct create_client_error; by eexists. }
  assert (Htf : exists e, bind tech_feed.__init__
                            (fun me => tech_feed.__call__ me) s
                          = Outcome (Raise e) s []).
  { unfold tech_feed.__init__, environ_get. rewrite Henv.
    destruct create_client_error; by eexists. }
  destruct Hgh as [e1 Hgh]. destruct Hhn as [e2 Hhn].
  destruct Htf as [e3 Htf].
  three_handlers;
    match goal with
    | |- context [handler ?n ?b ?j event s] =>
        destruct (handler_scheduled n b j event s Hsrc)
          as (Hr & Hf & (tail & Heff & Hq))
    end;
    [ rewrite Hgh in Hr, Hf, Heff | rewrite Hhn in Hr, Hf, Heff
    | rewrite Htf in Hr, Hf, Heff ];
    (split; [|split; [exact Hf|rewrite Heff; quiet_tac]]);
    eexists; (split; [exact Hr|]);
    unfold job_response, failure_response;
    by destruct (dict_has event "requestContext").
Qed.
End GateExtras.

Lemma scheduled_event_runs_job_witness :
  Forall (fun '(lambda_handler, job_name, job) =>
            let oj := job ∅ in
            let o := lambda_handler Demo.scheduled ∅ in
            res o = Ok (job_response Demo.scheduled job_name (res oj))
            /\ final o = final oj
            /\ exists tail,
                 effects o =
                 ([Dump (DEvent Demo.scheduled);
                   Print "Invocation source: EventBridge";
                   Print ("Triggering " ++ job_name ++ " job...")]
                  ++ effects oj ++ tail)%list
                 /\ quiet tail)
    (@handlers Demo.lib (Demo.hn Demo.ask_story)).
Proof.
  apply (@scheduled_event_runs_job Demo.lib (Demo.hn Demo.ask_story)
           Demo.scheduled ∅).
  reflexivity.
Defined.

Lemma post_with_scheduler_tag_runs_job_witness :
  let event :=
    Demo.post [("isBase64Encoded", VBool true);
               ("body", VStr "eyJzb3VyY2UiOiAiYXdzLmV2ZW50cyJ9")] in
  Forall (fun '(lambda_handler, job_name, job) =>
            let oj := job ∅ in
            let o := lambda_handler event ∅ in
            res o = Ok (job_response event job_name (res oj))
            /\ final o = final oj
            /\ exists before tail,
                 effects o = (before ++ effects oj ++ tail)%list
                 /\ quiet before /\ quiet tail)
    (@handlers Demo.lib (Demo.hn Demo.ask_story)).
Proof.
  apply (@post_with_scheduler_tag_runs_job Demo.lib (Demo.hn Demo.ask_story)
           (Demo.post [("isBase64Encoded", VBool true);
                       ("body", VStr "eyJzb3VyY2UiOiAiYXdzLmV2ZW50cyJ9")])
           ∅
           (VDict [("http", VDict [("method", VStr "POST")])])
           (VDict [("method", VStr "POST")]) (VStr "POST")
           (Demo.source_json "aws.events") [("source", VStr "aws.events")]);
    reflexivity.
Defined.

Lemma post_with_unparsable_body_gets_400_witness :
  Forall (fun lambda_handler : dict -> M response =>
            let o := lambda_handler
                       (Demo.post [("body", VStr "source=aws.events")]) ∅ in
            res o = Ok (json_response 400
                          "Invalid request: Expected 'source: aws.events' in POST body")
            /\ final o = ∅ /\ quiet (effects o))
    [@github_trending.lambda_handler Demo.lib Demo.silent;
     @hacker_news.lambda_handler Demo.lib Demo.silent;
     @tech_feed.lambda_handler Demo.lib Demo.silent].
Proof.
  apply (@post_with_unparsable_body_gets_400 Demo.lib Demo.silent
           (Demo.post [("body", VStr "source=aws.events")]) ∅
           (VDict [("http", VDict [("method", VStr "POST")])])
           (VDict [("method", VStr "POST")]) (VStr "POST")
           "source=aws.events"
           (Exn JSONDecodeError "Expecting value: line 1 column 1 (char 0)"));
    reflexivity.
Defined.

Lemma post_with_non_object_json_gets_500_witness :
  Forall (fun lambda_handler : dict -> M response =>
            let o := lambda_handler (Demo.post [("body", VStr "[]")]) ∅ in
            (exists r, res o = Ok r /\ statusCode r = 500
                       /\ headers r = Some [("Content-Type", "application/json")])
            /\ final o = ∅ /\ quiet (effects o))
    [@github_trending.lambda_handler Demo.lib Demo.silent;
     @hacker_news.lambda_handler Demo.lib Demo.silent;
     @tech_feed.lambda_handler Demo.lib Demo.silent].
Proof.
  apply (@post_with_non_object_json_gets_500 Demo.lib Demo.silent
           (Demo.post [("body", VStr "[]")]) ∅
           (VDict [("http", VDict [("method", VStr "POST")])])
           (VDict [("method", VStr "POST")]) (VStr "POST")
           "[]" (VList []));
    try reflexivity.
  intros d. discriminate.
Defined.

Lemma other_method_gets_400_witness :
  let event :=
    [("requestContext", VDict [("http", VDict [("method", VStr "GET")])]);
     ("body", VStr (Demo.source_json "aws.events"))] in
  Forall (fun lambda_handler : dict -> M response =>
            lambda_handler event ∅ =
            Outcome
              (Ok (json_response 400
                     "Invalid request: Expected 'source: aws.events' in POST body"))
              ∅
              [Dump (DEvent event);
               Print "Invocation source not recognized or payload mismatch. No action taken."])
    [@github_trending.lambda_handler Demo.lib Demo.silent;
     @hacker_news.lambda_handler Demo.lib Demo.silent;
     @tech_feed.lambda_handler Demo.lib Demo.silent].
Proof.
  apply (@other_method_gets_400 Demo.lib Demo.silent
           [("requestContext", VDict [("http", VDict [("method", VStr "GET")])]);
            ("body", VStr (Demo.source_json "aws.events"))] ∅
           (VDict [("http", VDict [("method", VStr "GET")])])
           (VDict [("method", VStr "GET")]) (VStr "GET"));
    reflexivity.
Defined.

Lemma malformed_request_context_gets_500_witness :
  Forall (fun lambda_handler : dict -> M response =>
            let o := lambda_handler [("requestContext", VNone)] ∅ in
            (exists r, res o = Ok r /\ statusCode r = 500
                       /\ headers r = Some [("Content-Type", "application/json")])
            /\ final o = ∅ /\ quiet (effects o))
    [@github_trending.lambda_handler Demo.lib Demo.silent;
     @hacker_news.lambda_handler Demo.lib Demo.silent;
     @tech_feed.lambda_handler Demo.lib Demo.silent].
Proof.
  apply (@malformed_request_context_gets_500 Demo.lib Demo.silent
           [("requestContext", VNone)] ∅ VNone);
    [reflexivity | reflexivity | exact I].
Defined.

Lemma missing_bucket_name_gets_500_witness :
  Forall (fun lambda_handler : dict -> M response =>
            let o := lambda_handler Demo.scheduled ∅ in
            (exists r, res o = Ok r /\ statusCode r = 500)
            /\ final o = ∅ /\ quiet (effects o))
    [@github_trending.lambda_handler Demo.lib Demo.unconfigured;
     @hacker_news.lambda_handler Demo.lib Demo.unconfigured;
     @tech_feed.lambda_handler Demo.lib Demo.unconfigured].
Proof.
  apply (@missing_bucket_name_gets_500 Demo.lib Demo.unconfigured
           Demo.scheduled ∅);
    reflexivity.
Defined.

(** ** hacker_news.py: the loop over the top stories *)

Lemma summarized_app effs1 effs2 :
  summarized (effs1 ++ effs2) = (summarized effs1 ++ summarized effs2)%list.
Proof. unfold summarized. by rewrite flat_map_app. Qed.

Lemma slept_app effs1 effs2 : slept (effs1 ++ effs2) = slept effs1 + slept effs2.
Proof.
  induction effs1 as [|e effs1 IH]; simpl; [done|].
  destruct e; rewrite ?IH; lia.
Qed.

Section HackerNewsExtras.
Context `{Library} `{World}.
Import hacker_news.

(** One turn requests the item, and when it returns it has either
    skipped the story or appended one story whose score is at least
    20. *)
Lemma story_step_inv stories story_id s :
  let o := story_step stories story_id s in
  fetched (effects o) = [hacker_news_item_url story_id]
  /\ forall stories', res o = Ok stories' ->
       stories' = stories
       \/ exists st, stories' = (stories ++ [st])%list /\ 20 <= story_score st.
Proof.
  unfold story_step, _get_story, summary_of, _summarize_story, subscript.
  unfold bind, emit, lift, ret, raise.
  destruct (hn_item story_id) as [story|e]; [|by split].
  destruct (raw_score story) as [score|]; [|by split].
  destruct (score <? 20) eqn:Hscore; [split; [done|]; intros ? [= <-]; by left|].
  apply Z.ltb_ge in Hscore.
  destruct (truthy_str (raw_text story)).
  - destruct (raw_text story) as [text|]; [|by split].
    destruct ((100 <? len text) && (len text <? 10000)).
    + destruct (raw_title story) as [title|]; [|by split].
      destruct (generate_content _ _); [|by split].
      split; [done|]. intros ? [= <-]. right. by eexists.
    + destruct (raw_title story) as [title|]; [|by split].
      split; [done|]. intros ? [= <-]. right. by eexists.
  - destruct (raw_title story) as [title|]; [|by split].
    split; [done|]. intros ? [= <-]. right. by eexists.
Qed.

Lemma stories_loop_inv ids : forall stories s,
  let o := for_each story_step ids stories s in
  (exists k, fetched (effects o) = map hacker_news_item_url (firstn k ids))
  /\ forall stories', res o = Ok stories' ->
       fetched (effects o) = map hacker_news_item_url ids
       /\ exists new, stories' = (stories ++ new)%list
                      /\ Forall (fun st => 20 <= story_score st) new
                      /\ (length new <= length ids)%nat.
Proof.
  induction ids as [|id ids IH]; intros stories s; simpl.
  - split; [by exists 0%nat|]. intros ? [= <-]. split; [done|].
    exists []. rewrite app_nil_r.
    split; [done|]. split; [constructor | simpl; lia].
  - pose proof (story_step_inv stories id s) as Hstep.
    unfold bind.
    destruct (story_step stories id s) as [[stories1|e] s1 effs1];
      simpl in Hstep; destruct Hstep as [Hf Hinv].
    + pose proof (IH stories1 s1) as Hrest.
      destruct (for_each story_step ids stories1 s1) as [r2 s2 effs2].
      simpl in Hrest |- *. destruct Hrest as [[k Hk] Hok].
      rewrite fetched_app, Hf. split.
      * exists (S k). simpl. by rewrite Hk.
      * intros stories' ->. destruct (Hok stories' eq_refl)
          as (-> & new & -> & Hnew & Hlen).
        split; [done|].
        destruct (Hinv stories1 eq_refl) as [->|(st & -> & Hst)].
        -- exists new. split; [done|]. split; [done | simpl; lia].
        -- exists (st :: new). rewrite <- app_assoc.
           split; [done|]. split; [by constructor | simpl; lia].
    + simpl. split; [|done]. exists 1%nat. rewrite Hf. by destruct ids.
Qed.

(** X11.  What [_get_top_stories] returns holds at most 30 stories, each with
    a score of at least 20; to get there it has requested the list of
    top stories and then the items of the first 30 ids, in order, and
    nothing else. *)
Theorem top_stories_are_few_and_popular (s : store) (stories : list Story) :
  res (_get_top_stories s) = Ok stories ->
  Forall (fun st => 20 <= story_score st) stories
  /\ (length stories <= 30)%nat
  /\ exists ids,
       hn_top_story_ids = Ok ids
       /\ fetched (effects (_get_top_stories s))
          = hacker_news_top_stories_url
            :: map hacker_news_item_url (firstn 30 ids).
Proof.
  unfold _get_top_stories, _get_top_storie_ids, bind, emit, lift, ret, raise.
  destruct hn_top_story_ids as [ids|e]; [|done].
  pose proof (stories_loop_inv (firstn hacker_news_num_top_stories ids) [] s)
    as Hloop.
  destruct (for_each story_step (firstn hacker_news_num_top_stories ids) [] s)
    as [r1 s1 effs1].
  simpl in Hloop |- *. destruct Hloop as [_ Hok]. intros ->.
  destruct (Hok stories eq_refl) as (Hf & new & -> & Hnew & Hlen).
  simpl. split; [done|]. split.
  - rewrite length_firstn in Hlen. unfold hacker_news_num_top_stories in Hlen.
    lia.
  - exists ids. split; [done|]. by rewrite Hf.
Qed.

(** X12.  An item without a score makes the loop raise KeyError: the run ends
    there, after two requests, with nothing put and the store as it
    was. *)
Theorem item_without_score_aborts_run (me : self) (s : store)
    (story_id : Z) (ids : list Z) (story : RawStory) :
  hn_top_story_ids = Ok (story_id :: ids) ->
  hn_item story_id = Ok story ->
  raw_score story = None ->
  __call__ me s =
  Outcome (Raise (Exn KeyError "'score'")) s
    [HttpGet hacker_news_top_stories_url;
     HttpGet (hacker_news_item_url story_id)].
Proof.
  intros Hids Hitem Hscore.
  unfold __call__, _get_top_stories, _get_top_storie_ids.
  unfold bind at 1. unfold bind at 1. unfold bind at 1.
  unfold emit at 1, lift at 1. rewrite Hids. cbn [ret firstn for_each].
  cbn [hacker_news_num_top_stories firstn for_each].
  unfold bind at 1. unfold story_step at 1, _get_story, subscript.
  unfold bind, emit, lift, ret, raise. by rewrite Hitem, Hscore.
Qed.

(** X13.  The summarizer is called only for a story that passed the score
    threshold and carries a text whose raw length lies strictly between
    100 and 10000, and then once, with the title and the stripped
    text. *)
Theorem summarizer_called_only_in_band (stories : list Story)
    (story_id : Z) (s : store) (contents : string) :
  In contents (summarized (effects (story_step stories story_id s))) ->
  exists story title score text,
    hn_item story_id = Ok story
    /\ raw_title story = Some title
    /\ raw_score story = Some score /\ 20 <= score
    /\ raw_text story = Some text /\ 100 < len text < 10000
    /\ contents = _contents_format title (get_text text)
    /\ summarized (effects (story_step stories story_id s)) = [contents].
Proof.
  unfold story_step, _get_story, summary_of, _summarize_story, subscript.
  unfold bind, emit, lift, ret, raise.
  destruct (hn_item story_id) as [story|e]; [|by intros []].
  destruct (raw_score story) as [score|] eqn:Hscore; [|by intros []].
  destruct (score <? 20) eqn:Hlow; [by intros []|].
  apply Z.ltb_ge in Hlow.
  destruct (raw_text story) as [text|] eqn:Htext; cbn [truthy_str].
  - destruct text as [|c text]; cbn iota.
    + destruct (raw_title story); by intros [].
    + destruct ((100 <? len (String c text)) && (len (String c text) <? 10000))
        eqn:Hband.
      * apply andb_true_iff in Hband. destruct Hband as [Hlo Hhi].
        apply Z.ltb_lt in Hlo, Hhi.
        destruct (raw_title story) as [title|] eqn:Htitle; [|by intros []].
        assert (Hsum : forall tail,
                  summarized (GenerateContent
                    (_contents_format title (_cleanse_text (String c text)))
                    _system_instruction :: tail) =
                  _contents_format title (get_text (String c text))
                  :: summarized tail) by done.
        destruct (generate_content _ _); cbn [effects app];
          intros [<-|[]]; exists story, title, score, (String c text);
          repeat split; done.
      * destruct (raw_title story); by intros [].
  - destruct (raw_title story); by intros [].
Qed.

(** X14.  When at least one story survives, [__call__] asks for exactly one
    put: under the key of today's Hacker News digest, with the rendered
    stories joined by the separator; the store holds the object when the
    put is accepted. *)
Theorem surviving_stories_are_published (me : self) (s : store)
    (stories : list Story) :
  res (_get_top_stories s) = Ok stories ->
  stories <> [] ->
  let key := "hacker_news/" ++ today ++ ".md" in
  let content := join separator (map _stylize_story stories) in
  let o := __call__ me s in
  puts (effects o) = [(_bucket_name me, key, content)]
  /\ (put_object_error (_bucket_name me) key content = None ->
        res o = Ok tt
        /\ final o = <[(_bucket_name me, key) := content]> s).
Proof.
  intros Hstories Hne key content o.
  assert (Hstore :
    let os := store_summaries_under "hacker_news" (_bucket_name me)
                (map _stylize_story stories) s in
    puts (effects os) = [(_bucket_name me, key, content)]
    /\ match put_object_error (_bucket_name me) key content with
       | None => res os = Ok tt
                 /\ final os = <[(_bucket_name me, key) := content]> s
       | Some e => final os = s
                   /\ res os = if bool_decide (exn_cls e = ClientError)
                               then Ok tt else Raise e
       end)
    by exact (store_summaries_spec "hacker_news" (_bucket_name me)
                (map _stylize_story stories) s).
  subst o. unfold __call__, bind.
  destruct (get_top_stories_frame s) as [Hs Hp0].
  destruct (_get_top_stories s) as [r1 s1 effs1].
  simpl in Hstories, Hs, Hp0. subst r1 s1.
  destruct stories as [|st stories]; [done|].
  unfold _store_summaries.
  destruct (store_summaries_under "hacker_news" (_bucket_name me)
              (map _stylize_story (st :: stories)) s) as [r2 s2 effs2].
  simpl in Hstore |- *. destruct Hstore as [Hp Hput]. split.
  - by rewrite puts_app, Hp0, Hp.
  - intros Hok. by rewrite Hok in Hput.
Qed.
End HackerNewsExtras.

Lemma top_stories_are_few_and_popular_witness :
  let stories :=
    [ {| story_title := "Ask HN: What do you use?"; story_score := 42;
         story_url := None; story_text := None |} ] in
  Forall (fun st => 20 <= story_score st) stories
  /\ (length stories <= 30)%nat
  /\ exists ids,
       @hn_top_story_ids (Demo.hn Demo.ask_story) = Ok ids
       /\ fetched (effects (@hacker_news._get_top_stories Demo.lib
                              (Demo.hn Demo.ask_story) ∅))
          = hacker_news.hacker_news_top_stories_url
            :: map hacker_news.hacker_news_item_url (firstn 30 ids).
Proof.
  apply (@top_stories_are_few_and_popular Demo.lib (Demo.hn Demo.ask_story) ∅).
  reflexivity.
Defined.

Lemma item_without_score_aborts_run_witness :
  @hacker_news.__call__ Demo.lib (Demo.hn Demo.scoreless_story) Demo.hn_me ∅ =
  Outcome (Raise (Exn KeyError "'score'")) ∅
    [HttpGet hacker_news.hacker_news_top_stories_url;
     HttpGet (hacker_news.hacker_news_item_url 1)].
Proof.
  apply (@item_without_score_aborts_run Demo.lib
           (Demo.hn Demo.scoreless_story) Demo.hn_me ∅ 1 []
           Demo.scoreless_story); reflexivity.
Defined.

Lemma summarizer_called_only_in_band_witness :
  exists story title score text,
    @hn_item (Demo.hn Demo.markup_story) 1 = Ok story
    /\ raw_title story = Some title
    /\ raw_score story = Some score /\ 20 <= score
    /\ raw_text story = Some text /\ 100 < len text < 10000
    /\ hacker_news._contents_format "Tell HN: Short note" (Demo.xs 98)
       = hacker_news._contents_format title (@get_text Demo.lib text)
    /\ summarized (effects (@hacker_news.story_step Demo.lib
                              (Demo.hn Demo.markup_story) [] 1 ∅))
       = [hacker_news._contents_format "Tell HN: Short note" (Demo.xs 98)].
Proof.
  apply (@summarizer_called_only_in_band Demo.lib (Demo.hn Demo.markup_story)
           [] 1 ∅
           (hacker_news._contents_format "Tell HN: Short note" (Demo.xs 98))).
  left. reflexivity.
Defined.

Lemma surviving_stories_are_published_witness :
  let stories :=
    [ {| story_title := "Ask HN: What do you use?"; story_score := 42;
         story_url := None; story_text := None |} ] in
  let key := "hacker_news/" ++ @today (Demo.hn Demo.ask_story) ++ ".md" in
  let content := join separator (map hacker_news._stylize_story stories) in
  let o := @hacker_news.__call__ Demo.lib (Demo.hn Demo.ask_story)
             Demo.hn_me ∅ in
  puts (effects o) = [("nook-bucket", key, content)]
  /\ (@put_object_error (Demo.hn Demo.ask_story) "nook-bucket" key content
      = None ->
      res o = Ok tt /\ final o = <[("nook-bucket", key) := content]> ∅).
Proof.
  apply (@surviving_stories_are_published Demo.lib (Demo.hn Demo.ask_story)
           Demo.hn_me ∅); [reflexivity | discriminate].
Defined.

(** ** Publishing, continued *)

Section PublishingExtras.
Context `{Library} `{World}.

Lemma store_summaries_requests_nothing prefix bucket summaries s :
  fetched (effects (store_summaries_under prefix bucket summaries s)) = [].
Proof.
  unfold store_summaries_under, try_except, put_object, bind, print, emit,
    of_class.
  destruct (put_object_error _ _ _) as [e|]; [|done].
  by destruct (bool_decide _).
Qed.

(** X15.  The shared body of the three [_store_summaries]: an accepted put
    stores the joined fragments under today's key and touches no other
    object; a put refused with a ClientError is logged and swallowed,
    with the store unchanged, and any other error is passed on. *)
Theorem store_summaries_outcome (prefix bucket : string)
    (summaries : list string) (s : store) :
  let key := prefix ++ "/" ++ today ++ ".md" in
  let content := join separator summaries in
  let o := store_summaries_under prefix bucket summaries s in
  match put_object_error bucket key content with
  | None =>
      res o = Ok tt
      /\ final o !! (bucket, key) = Some content
      /\ forall k, k <> (bucket, key) -> final o !! k = s !! k
  | Some e =>
      final o = s
      /\ if bool_decide (exn_cls e = ClientError)
         then res o = Ok tt
              /\ In (Print ("Error putting object " ++ key ++ " into bucket "
                            ++ bucket ++ ".")) (effects o)
         else res o = Raise e
  end.
Proof.
  cbv zeta.
  unfold store_summaries_under, try_except, put_object, separator,
    bind, print, emit, of_class.
  destruct (put_object_error _ _ _) as [e|]; cbn [res final effects].
  - destruct (bool_decide _); cbn [res final effects app].
    + split; [done|]. split; [done|]. right. by left.
    + done.
  - split; [done|]. split; [apply lookup_insert_eq|].
    intros k Hk. by apply lookup_insert_ne.
Qed.

(** X16.  Two runs on the same day write the same key: when both puts are
    accepted the store afterwards is the one the second run alone would
    have left. *)
Theorem rerun_replaces_digest (prefix bucket : string)
    (first second : list string) (s : store) :
  let key := prefix ++ "/" ++ today ++ ".md" in
  put_object_error bucket key (join separator first) = None ->
  put_object_error bucket key (join separator second) = None ->
  final (store_summaries_under prefix bucket second
           (final (store_summaries_under prefix bucket first s)))
  = final (store_summaries_under prefix bucket second s)
  /\ final (store_summaries_under prefix bucket second s)
     = <[(bucket, key) := join separator second]> s.
Proof.
  cbv zeta. intros Hfirst Hsecond.
  unfold store_summaries_under, try_except, put_object, separator,
    bind, print, emit, of_class in *.
  rewrite Hfirst, Hsecond. cbn [res final effects].
  split; [apply insert_insert_eq | done].
Qed.
End PublishingExtras.

Section GithubTrendingExtras.
Context `{Library} `{World}.
Import github_trending.

Lemma language_effects_fetched languages :
  fetched (flat_map language_effects languages) = map url_format languages.
Proof.
  induction languages as [|l ls IH]; simpl; [done|].
  rewrite fetched_app, IH. unfold language_effects.
  destruct (requests_get _) as [page|];
    [destruct (trending_repositories page)|]; done.
Qed.

(** X17.  A GitHub Trending run requests the page of every configured
    language, in order, whatever happened to the earlier ones; it
    renders the repositories of the languages that could be read, asks
    for one put, and raises only when the blob store fails with
    something other than a ClientError. *)
Theorem every_language_is_requested (me : self) (s : store) :
  let key := "github_trending/" ++ today ++ ".md" in
  let content :=
    join separator (flat_map rendered_language (_languages me)) in
  let o := __call__ me s in
  fetched (effects o) = map url_format (_languages me)
  /\ puts (effects o) = [(_bucket_name me, key, content)]
  /\ match put_object_error (_bucket_name me) key content with
     | None => res o = Ok tt
     | Some e => res o = if bool_decide (exn_cls e = ClientError)
                         then Ok tt else Raise e
     end.
Proof.
  intros key content o.
  assert (Hstore :
    let os := store_summaries_under "github_trending" (_bucket_name me)
                (flat_map rendered_language (_languages me)) s in
    puts (effects os) = [(_bucket_name me, key, content)]
    /\ match put_object_error (_bucket_name me) key content with
       | None => res os = Ok tt
                 /\ final os = <[(_bucket_name me, key) := content]> s
       | Some e => final os = s
                   /\ res os = if bool_decide (exn_cls e = ClientError)
                               then Ok tt else Raise e
       end)
    by exact (store_summaries_spec "github_trending" (_bucket_name me)
                (flat_map rendered_language (_languages me)) s).
  pose proof (store_summaries_requests_nothing "github_trending"
                (_bucket_name me)
                (flat_map rendered_language (_languages me)) s) as Hquiet.
  subst o. unfold __call__, bind. rewrite languages_loop_spec.
  unfold _store_summaries. cbn [app].
  destruct (store_summaries_under "github_trending" (_bucket_name me)
              (flat_map rendered_language (_languages me)) s)
    as [r2 s2 effs2].
  simpl in Hstore, Hquiet |- *. destruct Hstore as [Hp Hput].
  rewrite fetched_app, puts_app, language_effects_fetched,
    language_effects_no_put, Hquiet, Hp, app_nil_r.
  split; [done|]. split; [done|].
  destruct (put_object_error (_bucket_name me) key content); by destruct Hput.
Qed.
End GithubTrendingExtras.

Lemma rerun_replaces_digest_witness :
  let key := "tech_feed/2024-05-02.md" in
  final (@store_summaries_under Demo.silent "tech_feed" "nook-bucket"
           ["evening"]
           (final (@store_summaries_under Demo.silent "tech_feed"
                     "nook-bucket" ["morning"; "noon"] ∅)))
  = final (@store_summaries_under Demo.silent "tech_feed" "nook-bucket"
             ["evening"] ∅)
  /\ final (@store_summaries_under Demo.silent "tech_feed" "nook-bucket"
              ["evening"] ∅)
     = <[("nook-bucket", key) := join separator ["evening"]]> ∅.
Proof.
  apply (@rerun_replaces_digest Demo.silent "tech_feed" "nook-bucket"
           ["morning"; "noon"] ["evening"] ∅); reflexivity.
Defined.

(** ** tech_feed.py: summaries and the shape of a run *)

Lemma length_substring_0 n : forall s,
  String.length (substring 0 n s) = Nat.min n (String.length s).
Proof.
  induction n as [|n IH]; intros [|c s]; simpl; try reflexivity.
  by rewrite IH.
Qed.

Lemma substring_0_all n : forall s,
  (String.length s <= n)%nat -> substring 0 n s = s.
Proof.
  induction n as [|n IH]; intros [|c s] Hlen; simpl in *;
    try reflexivity; try lia.
  rewrite IH; [done | lia].
Qed.

Section TechFeedExtras.
Context `{Library} `{World}.
Import tech_feed.

(** X22.  [_summarize_article] never raises and never touches the store.  For
    a text that is empty or blank it answers the fixed sentence without
    calling the summarizer; otherwise it calls the summarizer once, with
    the title and at most the first 20000 characters of the text (the
    whole text when it is no longer), and answers its output, or an
    inline error message when the summarizer raises. *)
Theorem summarize_article_degrades (article : Article) (s : store) :
  let o := _summarize_article article s in
  let text := art_text article in
  let sent := str_prefix 20000 text in
  final o = s
  /\ puts (effects o) = []
  /\ len sent <= 20000
  /\ (len text <= 20000 -> sent = text)
  /\ if String.eqb text "" || isspace text
     then res o = Ok "Content could not be retrieved or was empty."
          /\ summarized (effects o) = []
     else summarized (effects o) = [_contents_format (art_title article) sent]
          /\ res o = match generate_content
                             (_contents_format (art_title article) sent)
                             _system_instruction with
                     | Ok summary => Ok summary
                     | Raise e =>
                         Ok ("Error summarizing content: " ++ str_of_exn e)
                     end.
Proof.
  intros o text sent. subst o.
  assert (Hlen : len sent <= 20000).
  { unfold sent, str_prefix, len. rewrite length_substring_0. lia. }
  assert (Hall : len text <= 20000 -> sent = text).
  { intros Hshort. unfold sent, str_prefix. apply substring_0_all.
    unfold len in Hshort. lia. }
  unfold _summarize_article. fold text. fold sent.
  destruct (String.eqb text "" || isspace text).
  - by repeat split.
  - unfold try_except, bind, print, emit, lift, ret, raise, any_exception.
    destruct (generate_content _ _); by repeat split.
Qed.

(** One turn of the inner loop sleeps two seconds when it returns, and
    not at all when the retrieval raises. *)
Lemma entry_step_sleep feed_name acc entry s :
  let o := entry_step feed_name acc entry s in
  slept (effects o) = match res o with Ok _ => 2 | Raise _ => 0 end.
Proof.
  unfold entry_step, _retrieve_article, _summarize_article.
  unfold try_except, bind, print, emit, lift, ret, raise, any_exception.
  unfold attribute, ret, raise.
  destruct (entry_link entry) as [link|]; [|done].
  destruct (requests_get link) as [page|e]; [|done].
  destruct (article_text page) as [text|e]; [|done].
  destruct (entry_title entry) as [title|]; [|done].
  cbn [art_text art_url art_title].
  destruct (String.eqb text "" || isspace text); [done|].
  by destruct (generate_content _ _).
Qed.

Lemma entries_loop_sleep feed_name entries : forall acc s mds,
  res (for_each (entry_step feed_name) entries acc s) = Ok mds ->
  slept (effects (for_each (entry_step feed_name) entries acc s))
  = 2 * Z.of_nat (length entries).
Proof.
  induction entries as [|e es IH]; intros acc s mds; simpl; [done|].
  pose proof (entry_step_sleep feed_name acc e s) as Hstep.
  unfold bind.
  destruct (entry_step feed_name acc e s) as [[acc'|x] s1 effs1];
    simpl in Hstep; [|done].
  pose proof (IH acc' s1) as Hrest.
  destruct (for_each (entry_step feed_name) es acc' s1) as [r2 s2 effs2].
  simpl in Hrest |- *. intros ->.
  rewrite slept_app, Hstep, (Hrest mds eq_refl). lia.
Qed.

(** A turn of the outer loop that returns has worked on the selected
    entries of its feed, all of them and in order. *)
Lemma feed_step_shape me acc feed s mds :
  res (feed_step me acc feed s) = Ok mds ->
  let o := feed_step me acc feed s in
  map Some (fetched (effects o)) = map entry_link (selected me feed)
  /\ length mds = (length acc + length (selected me feed))%nat
  /\ slept (effects o) = 2 * Z.of_nat (length (selected me feed)).
Proof.
  unfold feed_step, selected, _filter_entries, bind, emit, lift, ret, raise.
  destruct (feedparser_parse (snd feed)) as [parsed|e]; [|done].
  pose proof (filter_loop_frame me parsed [] s) as Hfilter.
  destruct (for_each (filter_step me) parsed [] s) as [[kept|x] s0 effs0];
    simpl in Hfilter; destruct Hfilter as (-> & Hquiet & Hkept); [|done].
  rewrite (Hkept kept eq_refl). cbn [app].
  apply quiet_counts in Hquiet as (Hdf & _ & Hds).
  pose proof (entries_loop_spec (fst feed)
                (cap_entries (List.filter (survives me) parsed)) acc s)
    as Hloop.
  pose proof (entries_loop_sleep (fst feed)
                (cap_entries (List.filter (survives me) parsed)) acc s)
    as Hsleep.
  destruct (for_each (entry_step (fst feed))
              (cap_entries (List.filter (survives me) parsed)) acc s)
    as [r1 s1 effs1].
  simpl in Hloop, Hsleep |- *. intros ->.
  destruct Hloop as (_ & _ & _ & Hok).
  destruct (Hok mds eq_refl) as [Hf Hl].
  rewrite fetched_app, Hdf, slept_app, Hds. cbn [app].
  rewrite Hf, (Hsleep mds eq_refl).
  repeat split; try done; lia.
Qed.

Lemma feeds_loop_shape me feeds : forall acc s mds,
  res (for_each (feed_step me) feeds acc s) = Ok mds ->
  let o := for_each (feed_step me) feeds acc s in
  map Some (fetched (effects o))
  = flat_map (fun f => map entry_link (selected me f)) feeds
  /\ length mds = (length acc + length (flat_map (selected me) feeds))%nat
  /\ slept (effects o) = 2 * Z.of_nat (length (flat_map (selected me) feeds)).
Proof.
  induction feeds as [|f fs IH]; intros acc s mds; simpl.
  - intros [= <-]. repeat split; try done; lia.
  - pose proof (feed_step_shape me acc f s) as Hstep.
    unfold bind.
    destruct (feed_step me acc f s) as [[acc'|x] s1 effs1];
      simpl in Hstep; [|done].
    destruct (Hstep acc' eq_refl) as (Hf & Hl & Hz).
    pose proof (IH acc' s1) as Hrest.
    destruct (for_each (feed_step me) fs acc' s1) as [r2 s2 effs2].
    simpl in Hrest |- *. intros ->.
    destruct (Hrest mds eq_refl) as (Hf' & Hl' & Hz').
    rewrite fetched_app, map_app, slept_app, Hf, Hf', Hz, Hz', length_app.
    repeat split; try done; lia.
Qed.

Lemma cap_entries_length entries :
  length (cap_entries entries) = Nat.min 10 (length entries).
Proof.
  unfold cap_entries, tech_feed_max_entries_per_day.
  destruct (10 <? length entries)%nat eqn:Hlen.
  - apply Nat.ltb_lt in Hlen. rewrite length_firstn. lia.
  - apply Nat.ltb_ge in Hlen. lia.
Qed.

(** X23.  A tech feed run publishes all or nothing.  When the loops return,
    the run has requested exactly the links of the selected entries of
    every feed, feed by feed and in feed order, at most 10 per feed, has
    slept two seconds per article, and asks for one put with one
    fragment per article; when anything in the loops raises, the run
    raises the same exception and nothing is put, not even the fragments
    already rendered. *)
Theorem tech_feed_publishes_all_or_nothing (me : self) (s : store) :
  let feeds := _tech_feed_urls me in
  let loops := collect_markdowns me s in
  let o := __call__ me s in
  Forall (fun f => (length (selected me f) <= 10)%nat) feeds
  /\ match res loops with
     | Ok markdowns =>
         map Some (fetched (effects o))
         = flat_map (fun f => map entry_link (selected me f)) feeds
         /\ length markdowns = length (flat_map (selected me) feeds)
         /\ slept (effects o) = 2 * Z.of_nat (length markdowns)
         /\ puts (effects o)
            = [(_bucket_name me, "tech_feed/" ++ today ++ ".md",
                join separator markdowns)]
     | Raise e =>
         res o = Raise e /\ puts (effects o) = [] /\ final o = s
     end.
Proof.
  intros feeds loops o. split.
  - apply Forall_forall. intros f _. unfold selected.
    destruct (feedparser_parse (snd f)); simpl; [|lia].
    rewrite cap_entries_length. lia.
  - destruct (res loops) as [markdowns|e] eqn:Hloops.
    + subst loops feeds. unfold collect_markdowns in Hloops.
      destruct (feeds_loop_shape me (_tech_feed_urls me) [] s markdowns
                  Hloops) as (Hf & Hl & Hz).
      assert (Hstore :
        let os := store_summaries_under "tech_feed" (_bucket_name me)
                    markdowns s in
        puts (effects os)
        = [(_bucket_name me, "tech_feed/" ++ today ++ ".md",
            join separator markdowns)]
        /\ fetched (effects os) = []
        /\ slept (effects os) = 0).
      { split; [exact (proj1 (store_summaries_spec "tech_feed"
                                (_bucket_name me) markdowns s))|].
        split; [apply store_summaries_requests_nothing|].
        unfold store_summaries_under, try_except, put_object, bind, print,
          emit, of_class.
        destruct (put_object_error _ _ _) as [x|]; [|done].
        by destruct (bool_decide _). }
      destruct (collect_markdowns_frame me s) as [Hs Hp0].
      subst o. unfold __call__, bind. unfold collect_markdowns in *.
      destruct (for_each (feed_step me) (_tech_feed_urls me) [] s)
        as [r1 s1 effs1].
      simpl in Hloops, Hs, Hp0, Hf, Hz. subst r1 s1.
      unfold _store_summaries.
      destruct (store_summaries_under "tech_feed" (_bucket_name me)
                  markdowns s) as [r2 s2 effs2].
      simpl in Hstore |- *. destruct Hstore as (Hp & Hfs & Hzs).
      rewrite fetched_app, slept_app, puts_app, Hfs, Hz, Hzs, Hp0, Hp,
        app_nil_r, Hf.
      simpl in Hl. repeat split; try done. lia.
    + destruct (failed_collect_publishes_nothing me s e Hloops)
        as (Hr & Hfin & Hp).
      by repeat split.
Qed.

(** X24.  A page that cannot be fetched stops the loop over the entries
    where it is: when the entries before it have a link and a title and
    their pages load, they were requested and slept for, the failing one
    was requested, the later ones never are, and the loop raises a plain
    Exception that carries the text of the original error. *)
Theorem failed_article_stops_the_loop (feed_name : string)
    (good later : list Entry) (bad : Entry) (url : string)
    (acc : list string) (s : store) (e : exn) :
  Forall (fun entry => exists link title page text,
            entry_link entry = Some link
            /\ entry_title entry = Some title
            /\ requests_get link = Ok page
            /\ article_text page = Ok text) good ->
  entry_link bad = Some url ->
  requests_get url = Raise e ->
  let o := for_each (entry_step feed_name) (good ++ bad :: later) acc s in
  res o = Raise (Exn Exception
                   ("Error raised while retrieving article: " ++ str_of_exn e))
  /\ map Some (fetched (effects o)) = map entry_link (good ++ [bad])
  /\ slept (effects o) = 2 * Z.of_nat (length good)
  /\ final o = s.
Proof.
  intros Hgood Hurl Hbad. revert acc.
  induction Hgood
    as [|g good (link & title & page & text & Hlink & Htitle & Hpage & Htext)
          _ IH];
    intros acc.
  - cbn [app]. rewrite (failed_article_aborts_loop _ _ _ _ _ _ _ Hurl Hbad).
    simpl. rewrite Hurl. by repeat split.
  - cbn [app for_each].
    pose proof (entry_step_spec feed_name acc g s) as Hstep.
    pose proof (entry_step_sleep feed_name acc g s) as Hsleep.
    assert (Hok : exists acc', res (entry_step feed_name acc g s) = Ok acc').
    { unfold entry_step, _retrieve_article.
      unfold try_except, bind at 1 2 3 4 5 6, attribute, emit, lift, ret.
      rewrite Hlink, Hpage, Htext, Htitle. cbn beta iota.
      destruct (summarize_article_never_raises
                  {| art_feed_name := feed_name; art_title := title;
                     art_url := link; art_text := text;
                     art_summary := "" |} s) as [summary Hsum].
      unfold bind.
      destruct (_summarize_article _ s) as [r1 s1 effs1].
      simpl in Hsum. subst r1. by eexists. }
    destruct Hok as [acc' Hacc']. unfold bind.
    destruct (entry_step feed_name acc g s) as [r1 s1 effs1].
    simpl in Hstep, Hsleep, Hacc'. subst r1. rewrite Hlink in Hstep.
    destruct Hstep as (Hf & _ & -> & _).
    specialize (IH acc').
    destruct (for_each (entry_step feed_name) (good ++ bad :: later) acc' s)
      as [r2 s2 effs2].
    simpl in IH |- *. destruct IH as (-> & Hf2 & Hz2 & ->).
    rewrite fetched_app, map_app, slept_app, Hf, Hf2, Hsleep, Hz2, Hlink.
    repeat split; try done. lia.
Qed.
(** The loop of the filter stops at the first entry it cannot get
    past. *)
Lemma filter_loop_stops me before bad after : forall acc s,
  forallb passable before = true ->
  passable bad = false ->
  res (for_each (filter_step me) (before ++ bad :: after) acc s)
  = Raise (Exn AttributeError "object has no attribute 'link'").
Proof.
  induction before as [|e es IH]; intros acc s Hbefore Hbad; simpl.
  - unfold bind. by rewrite filter_step_spec, Hbad.
  - simpl in Hbefore. apply andb_prop in Hbefore as [He Hes].
    unfold bind. rewrite filter_step_spec, He.
    specialize (IH (if survives me e then acc ++ [e] else acc)%list s
                  Hes Hbad).
    by destruct (for_each (filter_step me) (es ++ bad :: after) _ s).
Qed.

(** X25.  An entry with neither a date that converts nor a link stops the
    date filter: the diagnostic that would name its link raises
    AttributeError, the entries after it are not looked at, and the
    turn of the feed ends with the same exception before any article is
    requested. *)
Theorem entry_without_date_and_link_stops_the_filter (me : self)
    (feed : string * string) (before after : list Entry) (bad : Entry)
    (markdowns : list string) (s : store) :
  feedparser_parse (snd feed) = Ok (before ++ bad :: after)%list ->
  Forall (fun entry => datable entry \/ entry_link entry <> None) before ->
  entry_link bad = None ->
  ~ datable bad ->
  let missing := Exn AttributeError "object has no attribute 'link'" in
  let o := _filter_entries me (before ++ bad :: after) s in
  let turn := feed_step me markdowns feed s in
  res o = Raise missing
  /\ final o = s
  /\ quiet (effects o)
  /\ res turn = Raise missing
  /\ fetched (effects turn) = []
  /\ final turn = s.
Proof.
  intros Hparse Hbefore Hlink Hdate missing o turn.
  assert (Hpass : forallb passable before = true).
  { apply forallb_forall. intros e He. apply passable_spec.
    exact (proj1 (List.Forall_forall _ _) Hbefore e He). }
  assert (Hbad : passable bad = false).
  { unfold passable. rewrite Hlink.
    destruct (entry_date bad) as [d|] eqn:Hd; [|done].
    destruct (published_dt d) as [dt|] eqn:Hdt; [|done].
    destruct Hdate. exists d, dt.
    split; [by apply reads_date_spec | by apply converts_spec]. }
  pose proof (filter_loop_stops me before bad after [] s Hpass Hbad)
    as Hstop.
  pose proof (filter_loop_frame me (before ++ bad :: after) [] s) as Hframe.
  subst o turn.
  unfold feed_step, _filter_entries, bind, emit, lift, ret. rewrite Hparse.
  destruct (for_each (filter_step me) (before ++ bad :: after) [] s)
    as [r s1 effs].
  simpl in Hstop, Hframe |- *. subst r.
  destruct Hframe as (-> & Hquiet & _).
  destruct (quiet_counts _ Hquiet) as (Hf & _ & _).
  by repeat split.
Qed.
End TechFeedExtras.

Lemma entry_without_date_and_link_stops_the_filter_witness :
  let missing := Exn AttributeError "object has no attribute 'link'" in
  let entries := ([Demo.post1; Demo.undated] ++ Demo.bare :: [Demo.post2])%list in
  let o := @tech_feed._filter_entries Demo.lib Demo.tech_me entries ∅ in
  let turn :=
    @tech_feed.feed_step Demo.lib
      (Demo.world Demo.blog_pages Demo.no_ids Demo.no_item
         (fun _ => Ok entries) Demo.canned None)
      Demo.tech_me [] ("Blog", "https://blog.example/feed") ∅ in
  res o = Raise missing
  /\ final o = ∅
  /\ quiet (effects o)
  /\ res turn = Raise missing
  /\ fetched (effects turn) = []
  /\ final turn = ∅.
Proof.
  apply (@entry_without_date_and_link_stops_the_filter Demo.lib
           (Demo.world Demo.blog_pages Demo.no_ids Demo.no_item
              (fun _ => Ok ([Demo.post1; Demo.undated] ++ Demo.bare
                            :: [Demo.post2])%list) Demo.canned None)
           Demo.tech_me ("Blog", "https://blog.example/feed")
           [Demo.post1; Demo.undated] [Demo.post2] Demo.bare [] ∅).
  - reflexivity.
  - repeat (apply List.Forall_cons; [right; discriminate|]).
    apply List.Forall_nil.
  - reflexivity.
  - intros (d & dt & [Hd|[_ Hd]] & _); discriminate.
Defined.

Lemma failed_article_stops_the_loop_witness :
  let o := @for_each _ _ (@tech_feed.entry_step Demo.lib Demo.blog "Blog")
             ([Demo.post2] ++ Demo.post1 :: [Demo.post2]) [] ∅ in
  res o = Raise (Exn Exception
                   ("Error raised while retrieving article: "
                    ++ str_of_exn Demo.down))
  /\ map Some (fetched (effects o))
     = map entry_link ([Demo.post2] ++ [Demo.post1])
  /\ slept (effects o) = 2 * Z.of_nat (length [Demo.post2])
  /\ final o = ∅.
Proof.
  apply (@failed_article_stops_the_loop Demo.lib Demo.blog "Blog"
           [Demo.post2] [Demo.post2] Demo.post1 "https://blog.example/1"
           [] ∅ Demo.down).
  - constructor; [|constructor].
    exists "https://blog.example/2", "Second", "<p>Second post.</p>",
      "Second post.".
    by repeat split.
  - reflexivity.
  - reflexivity.
Defined.

(** ** The gate, continued *)

Section GateConverse.
Context `{Library} `{World}.

(** Deciding whether to start the job only prints. *)
Lemma is_trigger_event_quiet event s :
  final (is_trigger_event event s) = s
  /\ quiet (effects (is_trigger_event event s)).
Proof.
  unfold is_trigger_event.
  destruct (from_scheduler event); [split; [done|quiet_tac]|].
  destruct (dict_get event "requestContext") as [rc|]; [|split; [done|quiet_tac]].
  destruct (py_get rc "http" (VDict [])) as [http|e];
    [rewrite bind_lift_ok | split; [done|quiet_tac]].
  destruct (py_get http "method" VNone) as [method|e];
    [rewrite bind_lift_ok | split; [done|quiet_tac]].
  destruct (is_str method "POST"); [|split; [done|quiet_tac]].
  destruct (body_string_quiet event s) as [Hfin Hq].
  unfold bind, print, emit.
  destruct (body_string event s) as [[body_str|e] sb effs_b];
    simpl in Hfin, Hq; subst sb; [|split; [done|quiet_tac]].
  destruct body_str as [| | |text| |];
    try (split; [done|quiet_tac]).
  rewrite body_triggers_spec.
  destruct (json_loads text) as [v|e].
  - destruct v as [| | | | |d]; try (split; [done|quiet_tac]).
    destruct (from_scheduler d); split; try done; quiet_tac.
  - destruct (bool_decide _); split; try done; quiet_tac.
Qed.

Lemma handler_400_not_started job_name note job event s r :
  res (handler job_name note job event s) = Ok r ->
  statusCode r = 400 ->
  final (handler job_name note job event s) = s
  /\ quiet (effects (handler job_name note job event s)).
Proof.
  intros Hres Hcode.
  pose proof (handler_cases job_name note job event s) as Hc.
  destruct (is_trigger_event_quiet event s) as [Hfin Hq].
  cbv zeta in Hc. rewrite Hfin in Hc.
  destruct (res (is_trigger_event event s)) as [[|]|e].
  - destruct Hc as (_ & _ & Hr). rewrite Hr in Hres.
    destruct (res (job s)); injection Hres as <-;
      [|destruct (dict_has event "requestContext")]; discriminate.
  - destruct Hc as (Hf & (tail & -> & Hqt) & _). split; [done|]. quiet_tac.
  - destruct Hc as (_ & _ & Hr). rewrite Hr in Hres. injection Hres as <-.
    destruct (dict_has event "requestContext"); discriminate.
Qed.

(** X9.  A caller that receives 400 knows that nothing happened: the job was
    not started, the store is unchanged and the handler only printed. *)
Theorem status_400_means_nothing_happened (event : dict) (s : store) :
  Forall (fun lambda_handler : dict -> M response =>
            forall r,
              res (lambda_handler event s) = Ok r ->
              statusCode r = 400 ->
              final (lambda_handler event s) = s
              /\ quiet (effects (lambda_handler event s)))
    [github_trending.lambda_handler; hacker_news.lambda_handler;
     tech_feed.lambda_handler].
Proof.
  three_handlers; intros r; apply handler_400_not_started.
Qed.

(** X10.  A POST envelope flagged isBase64Encoded whose body is rejected by
    the base64 decoder with binascii.Error, or decodes to bytes that are
    not UTF-8, is read as the text of the empty JSON object; with
    [json.loads] reading that text as the empty object the answer is 400
    and the job is not started. *)
Theorem undecodable_base64_body_gets_400 (event : dict) (s : store)
    (request_context http method body_str : value) (e : exn) :
  from_scheduler event = false ->
  dict_get event "requestContext" = Some request_context ->
  py_get request_context "http" (VDict []) = Ok http ->
  py_get http "method" VNone = Ok method ->
  is_str method "POST" = true ->
  (exists flag, dict_get event "isBase64Encoded" = Some flag
                /\ truthy flag = true) ->
  dict_get event "body" = Some body_str ->
  match b64decode body_str with
  | Ok raw => utf8_decode raw = Raise e /\ exn_cls e = UnicodeDecodeError
  | Raise e' => e' = e /\ exn_cls e = BinasciiError
  end ->
  json_loads "{}" = Ok (VDict []) ->
  Forall (fun lambda_handler : dict -> M response =>
            let o := lambda_handler event s in
            res o = Ok (json_response 400
                          "Invalid request: Expected 'source: aws.events' in POST body")
            /\ final o = s /\ quiet (effects o))
    [github_trending.lambda_handler; hacker_news.lambda_handler;
     tech_feed.lambda_handler].
Proof.
  intros Hsrc Hrc Hhttp Hmethod Hpost (flag & Hflag & Htrue) Hbody Hfail Hjson.
  assert (Hread : res (body_string event s) = Ok (VStr "{}")).
  { unfold body_string. rewrite Hflag, Htrue, Hbody.
    unfold bind, try_except, lift, print, emit, ret, raise, of_class.
    destruct (b64decode body_str) as [raw|e'].
    - destruct Hfail as [-> Hcls]. by rewrite Hcls.
    - destruct Hfail as [-> Hcls]. by rewrite Hcls. }
  three_handlers;
    by apply (handler_post_mismatch _ _ _ event s request_context http
                method "{}" []).
Qed.
End GateConverse.

Lemma undecodable_base64_body_gets_400_witness :
  Forall (fun lambda_handler : dict -> M response =>
            let o := lambda_handler
                       (Demo.post [("isBase64Encoded", VBool true);
                                   ("body", VStr "/w==")]) ∅ in
            res o = Ok (json_response 400
                          "Invalid request: Expected 'source: aws.events' in POST body")
            /\ final o = ∅ /\ quiet (effects o))
    [@github_trending.lambda_handler Demo.lib Demo.silent;
     @hacker_news.lambda_handler Demo.lib Demo.silent;
     @tech_feed.lambda_handler Demo.lib Demo.silent].
Proof.
  apply (@undecodable_base64_body_gets_400 Demo.lib Demo.silent
           (Demo.post [("isBase64Encoded", VBool true);
                       ("body", VStr "/w==")]) ∅
           (VDict [("http", VDict [("method", VStr "POST")])])
           (VDict [("method", VStr "POST")]) (VStr "POST") (VStr "/w==")
           (Exn UnicodeDecodeError
              "'utf-8' codec can't decode byte 0xff in position 0: invalid start byte"));
    try reflexivity.
  - exists (VBool true). by split.
  - by split.
Defined.

(** ** github_trending.py: the texts of a repository heading *)





Lemma remove_char_gone x : forall s,
  all_chars (fun c => negb (Ascii.eqb c x)) (remove_char x s) = true.
Proof.
  induction s as [|c s IH]; simpl; [done|].
  destruct (Ascii.eqb c x) eqn:Hc; simpl; [done|]. by rewrite Hc.
Qed.

Lemma remove_char_keeps x (p : ascii -> bool) : forall s,
  all_chars p s = true -> all_chars p (remove_char x s) = true.
Proof.
  induction s as [|c s IH]; simpl; [done|].
  intros Hall. apply andb_true_iff in Hall. destruct Hall as [Hc Hs].
  destruct (Ascii.eqb c x); simpl; [by apply IH|]. by rewrite Hc, IH.
Qed.

Lemma lstrip_with_blank (p : ascii -> bool) : forall s,
  all_chars p s = true -> lstrip_with p s = "".
Proof.
  induction s as [|c s IH]; simpl; [done|].
  intros Hall. apply andb_true_iff in Hall. destruct Hall as [-> Hs].
  by apply IH.
Qed.

Lemma strip_blank s : s = "" \/ isspace s = true -> strip s = "".
Proof.
  intros [->|Hblank]; [done|]. unfold strip.
  rewrite lstrip_with_blank; [done|]. by destruct s.
Qed.


(** X19.  What the loop makes of one heading.  A missing anchor or a missing
    stargazers link raises AttributeError, a star text that is no number
    raises ValueError, a missing description paragraph is no error.  A
    repository that is returned has a name without spaces and line
    breaks, the link https://github.com/ followed by that name, and a
    description exactly when the paragraph exists. *)
Theorem repository_of_element_shape (repo : Element) :
  match repository_of_element repo with
  | Ok repository =>
      repo_link repository = "https://github.com/" ++ repo_name repository
      /\ all_chars is_solid (repo_name repository) = true
      /\ (repo_description repository = None <-> paragraph_text repo = None)
      /\ anchor_text repo <> None /\ stargazers_text repo <> None
  | Raise e =>
      if bool_decide (anchor_text repo = None \/ stargazers_text repo = None)
      then exn_cls e = AttributeError
      else exn_cls e = ValueError
  end.
Proof.
  unfold repository_of_element.
  destruct (anchor_text repo) as [a|].
  - destruct (stargazers_text repo) as [t|].
    + destruct (py_int _) as [stars|e] eqn:Hint.
      * cbn [repo_link repo_name repo_description].
        split; [done|]. split.
        -- unfold is_solid.
           assert (Hnl := remove_char_gone "010" (strip a)).
           assert (Hsp := remove_char_gone " "
                            (remove_char "010" (strip a))).
           apply (remove_char_keeps " ") in Hnl.
           revert Hnl Hsp.
           generalize (remove_char " " (remove_char "010" (strip a))).
           induction s as [|c s IH]; simpl; [done|].
           intros H1 H2. apply andb_true_iff in H1, H2.
           destruct H1 as [-> H1], H2 as [-> H2]. by apply IH.
        -- split; [|done]. by destruct (paragraph_text repo).
      * rewrite bool_decide_eq_false_2; [|by intros [|]].
        unfold py_int in Hint.
        destruct (literal_digits _ _); [|by injection Hint as <-].
        destruct (4300 <? _); [by injection Hint as <-|done].
    + rewrite bool_decide_eq_true_2; [done | by right].
  - rewrite bool_decide_eq_true_2; [done | by left].
Qed.

(** X20.  A heading that loads but has no description paragraph, or a blank
    one, is rendered with the fixed text in the place of the
    description. *)
Theorem blank_description_is_replaced (repo : Element)
    (repository : Repository) :
  repository_of_element repo = Ok repository ->
  match paragraph_text repo with
  | None => True
  | Some p => p = "" \/ isspace p = true
  end ->
  github_trending._stylize_repository_info repository
  = github_trending._MARKDOWN_FORMAT (repo_name repository)
      (str_of_int (repo_stars repository)) (repo_link repository)
      "No description".
Proof.
  intros Hrepo Hblank. apply stylize_repository_without_description.
  unfold repository_of_element in Hrepo.
  destruct (anchor_text repo); [|done].
  destruct (stargazers_text repo); [|done].
  destruct (py_int _); [|done]. injection Hrepo as <-.
  cbn [repo_description].
  destruct (paragraph_text repo) as [p|]; [|done].
  by rewrite (strip_blank p Hblank).
Qed.

(** X21.  One heading that cannot be read loses the whole page: the loop
    raises at the first such heading, and returns one repository per
    heading, in page order, only when every heading could be read. *)
Theorem one_bad_heading_loses_the_page (elements : list Element) :
  match repositories_of_elements elements with
  | Ok repositories =>
      map repository_of_element elements = map Ok repositories
  | Raise e =>
      exists before bad after,
        elements = (before ++ bad :: after)%list
        /\ repository_of_element bad = Raise e
        /\ Forall (fun repo => exists r, repository_of_element repo = Ok r)
             before
  end.
Proof.
  induction elements as [|repo rest IH]; simpl; [done|].
  destruct (repository_of_element repo) as [repository|e] eqn:Hrepo.
  - destruct (repositories_of_elements rest) as [repositories|e].
    + simpl. by rewrite IH.
    + destruct IH as (before & bad & after & -> & Hbad & Hbefore).
      exists (repo :: before), bad, after.
      split; [done|]. split; [done|]. constructor; [by eexists | done].
  - exists [], repo, rest. split; [done|]. split; [done|]. constructor.
Qed.


Lemma blank_description_is_replaced_witness :
  let repository :=
    {| repo_name := "psf/requests"; repo_description := Some "";
       repo_link := "https://github.com/psf/requests";
       repo_stars := 52345 |} in
  github_trending._stylize_repository_info repository
  = github_trending._MARKDOWN_FORMAT (repo_name repository)
      (str_of_int (repo_stars repository)) (repo_link repository)
      "No description".
Proof.
  apply (blank_description_is_replaced Demo.heading); [reflexivity|].
  right. reflexivity.
Defined.
